(** * FinalSQLExtremophile: the query-dispatch and execution path

    A shallow embedding of [FinalSQLExtremophile.py], the single-file
    dashboard over the biological research database, together with the
    properties its specification states about it.

    The program talks to three collaborators that are not part of it: the
    MySQL server (through the connector), the widget toolkit and the
    charting library.  They are modelled as follows.

    - The server is an oracle [World]: whether the n-th connection attempt
      is accepted, and what a statement run on the n-th connection returns.
    - The widgets that read user input are an oracle [UI]; the calls that
      put something on the page are recorded as [Event]s, in program order,
      next to the calls made to the connector.
    - Python exceptions are the [Raise] outcome of the monad [M]. *)

From Stdlib Require Import ZArith Ascii.
From stdpp Require Import gmap strings list fin_maps pretty.

Local Open Scope Z_scope.

(** ** Python values *)

(** The values that travel between the widgets, the connector and the data
    frames.  [VNpInt] is a numpy integer ([np.int64] and its siblings, the
    instances of [np.integer]); the store's numbers are represented by
    integers (fractional values are outside the model). *)
Inductive PyVal : Type :=
  | VNone
  | VInt (z : Z)
  | VNpInt (z : Z)
  | VStr (s : string).

Inductive Exn : Type :=
  | IndexError
  | KeyError (key : string)
  | TypeError
  | ValueError
  | AttributeError (name : string)
  | MySQLError (msg : string).

Inductive Outcome (A : Type) : Type :=
  | Ok (a : A)
  | Raise (e : Exn).
Arguments Ok {A} a.
Arguments Raise {A} e.

#[global] Instance PyVal_eq_dec : EqDecision PyVal.
Proof. solve_decision. Defined.

(** [isinstance(p, np.integer)] *)
Definition is_np_integer (p : PyVal) : bool :=
  match p with VNpInt _ => true | _ => false end.

(** [str(v)], as used by the f-strings of the program. *)
Definition py_str (v : PyVal) : string :=
  match v with
  | VNone => "None"
  | VInt z | VNpInt z => pretty z
  | VStr s => s
  end.

(** [==] on scalars: numbers compare by value, whatever their wrapper. *)
Definition py_eqb (a b : PyVal) : bool :=
  match a, b with
  | VNone, VNone => true
  | (VInt x | VNpInt x), (VInt y | VNpInt y) => Z.eqb x y
  | VStr s, VStr t => String.eqb s t
  | _, _ => false
  end.

(** pandas' [isna] on a cell. *)
Definition is_null (v : PyVal) : bool :=
  match v with VNone => true | _ => false end.

(** *** [int(...)] *)

Definition is_space (c : ascii) : bool :=
  let n := nat_of_ascii c in
  ((9 <=? n) && (n <=? 13) || (28 <=? n) && (n <=? 32))%nat.

Definition digit_of (c : ascii) : option Z :=
  let n := Z.of_nat (nat_of_ascii c) in
  if (48 <=? n) && (n <=? 57) then Some (n - 48) else None.

Fixpoint lstrip (s : string) : string :=
  match s with
  | String c r => if is_space c then lstrip r else s
  | EmptyString => EmptyString
  end.

(** Digits with single underscores between them, then optional trailing
    whitespace.  [acc] is the value read so far, [after_digit] tells whether
    the previous character was a digit. *)
Fixpoint parse_digits (s : string) (acc : Z) (after_digit : bool) : option Z :=
  match s with
  | EmptyString => if after_digit then Some acc else None
  | String c r =>
      match digit_of c with
      | Some d => parse_digits r (10 * acc + d) true
      | None =>
          if after_digit then
            if Ascii.eqb c "_" then
              match r with
              | String c' _ =>
                  match digit_of c' with
                  | Some _ => parse_digits r acc false
                  | None => None
                  end
              | EmptyString => None
              end
            else if is_space c then
              match lstrip r with EmptyString => Some acc | _ => None end
            else None
          else None
      end
  end.

(** [int(s)] for a string of ASCII characters, base 10 (digits outside
    ASCII and the interpreter's cap on the number of digits are not
    modelled). *)
Definition int_of_str (s : string) : option Z :=
  match lstrip s with
  | String "-" r => Z.opp <$> parse_digits r 0 false
  | String "+" r => parse_digits r 0 false
  | r => parse_digits r 0 false
  end.

Definition py_int (v : PyVal) : Outcome Z :=
  match v with
  | VInt z | VNpInt z => Ok z
  | VStr s => match int_of_str s with Some z => Ok z | None => Raise ValueError end
  | VNone => Raise TypeError
  end.

(** ** Data frames *)

(** [pd.DataFrame(result, columns=columns)]: the column names and the rows
    in the order fetched.  Cells are kept as the connector delivered them;
    the numeric widening pandas applies to a column is not modelled, except
    that an integer read back from a frame is a numpy integer
    ([frame_scalar]). *)
Record DataFrame : Type := mkFrame {
  columns : list string;
  rows : list (list PyVal)
}.

(** [pd.DataFrame()] *)
Definition empty_frame : DataFrame := mkFrame [] [].

Fixpoint col_index (name : string) (cols : list string) : option nat :=
  match cols with
  | [] => None
  | c :: r => if String.eqb c name then Some 0%nat else S <$> col_index name r
  end.

Definition cell (row : list PyVal) (i : nat) : PyVal := nth i row VNone.

(** A scalar taken out of a frame: integers come back as numpy integers. *)
Definition frame_scalar (v : PyVal) : PyVal :=
  match v with VInt z => VNpInt z | _ => v end.

(** List.tolist() gives plain Python values back. *)
Definition tolist_scalar (v : PyVal) : PyVal :=
  match v with VNpInt z => VInt z | _ => v end.

(** ** The outside world *)

(** The keyword arguments of [mysql.connector.connect]. *)
Record ConnectArgs : Type := mkArgs {
  host : string;
  port : Z;
  user : string;
  password : string;
  database : string
}.

(** The server.  [accept n a] is [None] when the [n]-th connection attempt
    of the session, made with arguments [a], yields a handle, and [Some msg]
    when the connector raises [mysql.connector.Error].  [answer n q ps] is
    what running statement [q] with bound parameters [ps] on that connection
    gives: the column names of [cursor.description] with the rows of
    [fetchall()], or the message of the error the store raises. *)
Record World : Type := mkWorld {
  accept : nat → ConnectArgs → option string;
  answer : nat → string → option (list PyVal) →
           string + (list string * list (list PyVal))
}.

(** What the user did to the widgets before this rerun of the script, keyed
    by widget label: the text typed into a text input ([None]: left at its
    default), whether a button was pressed, the index picked in a select
    box, the indices picked in a multi-select, in the order picked. *)
Record UI : Type := mkUI {
  typed : string → option string;
  pressed : string → bool;
  picked : string → nat;
  multipicked : string → list nat
}.

(** What [st.write] is given. *)
Inductive Shown : Type :=
  | Text (s : string)
  | Frame (df : DataFrame).

(** The calls the program makes to its collaborators. *)
Inductive Event : Type :=
  | MySQLConnect (a : ConnectArgs)
  | CursorExecute (query : string) (params : option (list PyVal))
  | CursorFetchall
  | CursorClose
  | ConnClose
  | StError (msg : string)
  | StTitle (s : string)
  | StHeader (s : string)
  | StSubheader (s : string)
  | StWrite (x : Shown)
  | StDataframe (df : DataFrame)
  | StPlotlyChart (title : string)
  | StExpander (label : string)
  | SidebarSuccess (msg : string)
  | SidebarError (msg : string)
  | SidebarWrite (x : Shown).

(** The state a run of the script threads: how many connection attempts the
    session has made so far, and [st.session_state]. *)
Record St : Type := mkSt {
  attempts : nat;
  session_state : gmap string bool
}.

Record Res (A : Type) : Type := mkRes {
  outcome : Outcome A;
  events : list Event;
  final : St
}.
Arguments mkRes {A} _ _ _.
Arguments outcome {A} _.
Arguments events {A} _.
Arguments final {A} _.

(** ** The monad of the script *)

Definition M (A : Type) : Type := World → St → Res A.

#[global] Instance M_ret : MRet M := λ A (a : A) _ s, mkRes (Ok a) [] s.

#[global] Instance M_bind : MBind M := λ A B (f : A → M B) (m : M A) w s,
  let r := m w s in
  match outcome r with
  | Ok a =>
      let r' := f a w (final r) in
      mkRes (outcome r') (events r ++ events r') (final r')
  | Raise e => mkRes (Raise e) (events r) (final r)
  end.

Definition emit (e : Event) : M unit := λ _ s, mkRes (Ok tt) [e] s.

Definition lift {A} (o : Outcome A) : M A := λ _ s, mkRes o [] s.

(** [for x in xs: body x] *)
Fixpoint for_each {A} (xs : list A) (body : A → M unit) : M unit :=
  match xs with
  | [] => mret tt
  | x :: r => body x;; for_each r body
  end.

(** *** Connector primitives *)

(** [mysql.connector.connect] with keyword arguments [a]: one attempt;
    [None] is a handle. *)
Definition mysql_connect (a : ConnectArgs) : M (option string) := λ w s,
  mkRes (Ok (accept w (attempts s) a)) [MySQLConnect a]
        (mkSt (S (attempts s)) (session_state s)).

(** [cursor.execute(q)] / [cursor.execute(q, ps)] followed by
    [cursor.fetchall()] and the read of [cursor.description], on the
    connection opened last. *)
Definition cursor_execute (q : string) (ps : option (list PyVal))
  : M (list string * list (list PyVal)) := λ w s,
  match answer w (pred (attempts s)) q ps with
  | inr t => mkRes (Ok t) [CursorExecute q ps; CursorFetchall] s
  | inl msg => mkRes (Raise (MySQLError msg)) [CursorExecute q ps] s
  end.

(** *** Session state *)

Definition session_get (k : string) : M bool := λ _ s,
  match session_state s !! k with
  | Some b => mkRes (Ok b) [] s
  | None => mkRes (Raise (AttributeError k)) [] s
  end.

Definition session_set (k : string) (b : bool) : M unit := λ _ s,
  mkRes (Ok tt) [] (mkSt (attempts s) (<[k:=b]> (session_state s))).

Definition session_has (k : string) : M bool := λ _ s,
  mkRes (Ok (bool_decide (is_Some (session_state s !! k)))) [] s.

(** *** Input widgets *)

Definition st_text_input (ui : UI) (label default : string) : string :=
  match typed ui label with Some s => s | None => default end.

Definition st_button (ui : UI) (label : string) : bool := pressed ui label.

(** A select box gives back one of its options, the first one when the
    user picked nothing else, and [None] when there are no options. *)
Definition st_selectbox {A} (ui : UI) (label : string) (options : list A)
  : option A :=
  match options !! picked ui label with
  | Some o => Some o
  | None => head options
  end.

Definition st_multiselect {A} (ui : UI) (label : string) (options : list A)
  : list A :=
  omap (λ i, options !! i) (multipicked ui label).

(** ** The program *)

(** [connect_to_db], lines 10-22. *)
Definition connect_to_db (hostname user password database : string)
  : M (option unit) :=
  r ← mysql_connect (mkArgs hostname 3306 user password database);
  match r with
  | None => mret (Some tt)
  | Some err => emit (StError ("Error: " +:+ err));; mret None
  end.

(** The generator expression of line 33; [int(p)] of a numpy integer is the
    plain integer of the same value. *)
Definition normalize_params (params : list PyVal) : list PyVal :=
  (λ p, if is_np_integer p
        then match p with VNpInt z => VInt z | _ => p end
        else p) <$> params.

(** Truthiness of the [params] argument: [None] and [()] are false. *)
Definition truthy_params (params : option (list PyVal)) : bool :=
  match params with
  | None => false
  | Some [] => false
  | Some (_ :: _) => true
  end.

(** [execute_query], lines 25-42. *)
Definition execute_query (query hostname user password database : string)
    (params : option (list PyVal)) : M DataFrame :=
  conn ← connect_to_db hostname user password database;
  match conn with
  | None => mret empty_frame
  | Some _ =>
      t ← (if truthy_params params
           then cursor_execute query
                  (Some (normalize_params (default [] params)))
           else cursor_execute query None);
      let df := mkFrame t.1 t.2 in
      emit CursorClose;;
      emit ConnClose;;
      mret df
  end.

(** [search_database], lines 45-51. *)
Definition search_query : string :=
"
    SELECT 'Organism' as Type, Name as Result FROM Organism WHERE Name LIKE %s
    UNION
    SELECT 'Project' as Type, Title as Result FROM ProjectInfo WHERE Title LIKE %s
    ".

Definition search_database (search_term hostname user password database : string)
  : M DataFrame :=
  execute_query search_query hostname user password database
    (Some [VStr ("%" +:+ search_term +:+ "%");
           VStr ("%" +:+ search_term +:+ "%")]).

(** *** Frame accessors *)

(** [df[name]]: the cells of a column, top to bottom. *)
Definition column (df : DataFrame) (name : string) : Outcome (list PyVal) :=
  match col_index name (columns df) with
  | Some i => Ok ((λ r, cell r i) <$> rows df)
  | None => Raise (KeyError name)
  end.

(** [row[name]] for a row of the frame. *)
Definition row_get (df : DataFrame) (row : list PyVal) (name : string)
  : Outcome PyVal :=
  match col_index name (columns df) with
  | Some i => Ok (frame_scalar (cell row i))
  | None => Raise (KeyError name)
  end.

(** [df.iloc[0][name]] *)
Definition iloc0 (df : DataFrame) (name : string) : Outcome PyVal :=
  match rows df with
  | [] => Raise IndexError
  | r :: _ => row_get df r name
  end.

Definition has_column (df : DataFrame) (name : string) : bool :=
  bool_decide (is_Some (col_index name (columns df))).

(** [organism_profile], lines 54-72. *)
Definition profile_query : string :=
  "SELECT * FROM Organism_Profile WHERE Name = %s".

Definition conditions_query : string :=
  "SELECT * FROM EnvironmentalCondition WHERE OrganismID = %s".

Definition projects_query : string :=
"
    SELECT pi.Title, pi.Description, pi.StartDate, pi.EndDate, ps.Status
    FROM ProjectInfo pi
    JOIN Organism_ResearchProject orp ON pi.ProjectID = orp.ProjectID
    JOIN ProjectStatus ps ON pi.ProjectID = ps.ProjectID
    JOIN Organism o ON orp.OrganismID = o.OrganismID
    WHERE o.Name = %s
    ".

Definition organism_profile (organism_name : PyVal)
    (hostname user password database : string) : M unit :=
  organism_info ← execute_query profile_query hostname user password database
                    (Some [organism_name]);
  v ← lift (iloc0 organism_info "OrganismID");
  organism_id ← lift (py_int v);
  environmental_conditions ←
    execute_query conditions_query hostname user password database
      (Some [VInt organism_id]);
  projects ← execute_query projects_query hostname user password database
               (Some [organism_name]);
  emit (StSubheader ("Organism Profile: " +:+ py_str organism_name));;
  emit (StWrite (Frame organism_info));;
  emit (StSubheader "Environmental Conditions");;
  emit (StWrite (Frame environmental_conditions));;
  emit (StSubheader "Associated Projects");;
  emit (StWrite (Frame projects)).

(** [px.bar(df, x=..., y=...)] refuses a column name the frame lacks. *)
Definition px_bar (df : DataFrame) (x y : string) : Outcome unit :=
  if has_column df x && has_column df y then Ok tt else Raise ValueError.

(** [','.join(parts)] *)
Fixpoint join (sep : string) (parts : list string) : string :=
  match parts with
  | [] => ""
  | [p] => p
  | p :: r => p +:+ sep +:+ join sep r
  end.

(** [student_view], lines 75-106. *)
Definition student_queries : list string :=
  ["List organisms with their taxonomic information and ecosystem";
   "Find average optimal temperature for organisms in each ecosystem"].

Definition base_query : string :=
  "SELECT * FROM Student_Organism_Taxonomy_Ecosystem".

Definition domain_options : list string := ["Archaea"; "Bacteria"; "Eukarya"].

(** Line 88. *)
Definition filtered_query (domain_filter : list string) : string :=
  base_query +:+ " WHERE Domain IN (" +:+
  join "," (replicate (length domain_filter) "%s") +:+ ")".

Definition student_view (ui : UI) (hostname user password database : string)
  : M unit :=
  emit (StHeader "Student View");;
  let query := st_selectbox ui "Select a query:" student_queries in
  if bool_decide (query =
       Some "List organisms with their taxonomic information and ecosystem")
  then
    let domain_filter := st_multiselect ui "Filter by Domain:" domain_options in
    df ← match domain_filter with
         | _ :: _ =>
             execute_query (filtered_query domain_filter)
               hostname user password database (Some (VStr <$> domain_filter))
         | [] =>
             execute_query base_query hostname user password database None
         end;
    emit (StDataframe df);;
    lift (column df "Domain");;
    emit (StPlotlyChart "Organism Count by Domain")
  else if bool_decide (query =
       Some "Find average optimal temperature for organisms in each ecosystem")
  then
    df ← execute_query "SELECT * FROM Student_Avg_Optimum_Temp_By_Ecosystem"
           hostname user password database None;
    emit (StDataframe df);;
    lift (px_bar df "EcosystemName" "AverageOptimalTemp");;
    emit (StPlotlyChart "Average Optimal Temperature by Ecosystem")
  else mret tt.

(** [researcher_view], lines 109-133. *)
Definition researcher_queries : list string :=
  ["Organisms with extreme temperature requirements";
   "Funding sources for projects related to aquatic ecosystems";
   "Analysis organisms and projects by domain and ecosystem";
   "Organism names, average optimum temperature, and associated project titles"].

(** A catalog entry that is run and shown as a plain table. *)
Definition show_table (sql hostname user password database : string)
  : M DataFrame :=
  df ← execute_query sql hostname user password database None;
  emit (StDataframe df);;
  mret df.

Definition researcher_view (ui : UI) (hostname user password database : string)
  : M unit :=
  emit (StHeader "Researcher View");;
  let query := st_selectbox ui "Select a query:" researcher_queries in
  if bool_decide (query = Some "Organisms with extreme temperature requirements")
  then show_table "SELECT * FROM Researcher_Extreme_Temperature_Organisms"
         hostname user password database;; mret tt
  else if bool_decide (query =
       Some "Funding sources for projects related to aquatic ecosystems")
  then show_table "SELECT * FROM Researcher_Funding_Aquatic_Projects"
         hostname user password database;; mret tt
  else if bool_decide (query =
       Some "Analysis organisms and projects by domain and ecosystem")
  then show_table "SELECT * FROM Researcher_Organisms_Projects_Domain_Ecosystem"
         hostname user password database;; mret tt
  else if bool_decide (query =
       Some "Organism names, average optimum temperature, and associated project titles")
  then show_table "SELECT * FROM Researcher_Organism_Temperature_Project"
         hostname user password database;; mret tt
  else mret tt.

(** *** The client-side aggregation of the administrator view *)

(** The order pandas sorts group keys in: numbers by value, before strings;
    strings by code point. *)
Definition py_ltb (a b : PyVal) : bool :=
  match a, b with
  | (VInt x | VNpInt x), (VInt y | VNpInt y) => Z.ltb x y
  | (VInt _ | VNpInt _), VStr _ => true
  | VStr s, VStr t => String.ltb s t
  | _, _ => false
  end.

Fixpoint insert_sorted (k : PyVal) (ks : list PyVal) : list PyVal :=
  match ks with
  | [] => [k]
  | k' :: r => if py_ltb k k' then k :: ks else k' :: insert_sorted k r
  end.

Definition sort_keys (ks : list PyVal) : list PyVal :=
  foldr insert_sorted [] ks.

(** [Series.unique()]: the distinct values in order of first appearance. *)
Fixpoint unique (vs : list PyVal) : list PyVal :=
  match vs with
  | [] => []
  | v :: r => v :: filter (λ v', negb (py_eqb v v')) (unique r)
  end.

(** The rows of the frame whose cell in column [i] equals [k]:
    [df[df[col] == k]]. *)
Definition rows_where (i : nat) (k : PyVal) (rs : list (list PyVal))
  : list (list PyVal) :=
  filter (λ r, py_eqb (cell r i) k) rs.

(** The group keys of [df.groupby(col)]: null keys are dropped, the keys
    are sorted. *)
Definition group_keys (i : nat) (rs : list (list PyVal)) : list PyVal :=
  sort_keys (unique (filter (λ v, negb (is_null v)) ((λ r, cell r i) <$> rs))).

(** The ['first'] aggregate: the first value of the group that is not null. *)
Definition agg_first (vs : list PyVal) : PyVal :=
  default VNone (head (filter (λ v, negb (is_null v)) vs)).

(** The ['count'] aggregate: the number of values that are not null. *)
Definition agg_count (vs : list PyVal) : PyVal :=
  VInt (Z.of_nat (length (filter (λ v, negb (is_null v)) vs))).

Definition need_column (df : DataFrame) (name : string) : Outcome nat :=
  match col_index name (columns df) with
  | Some i => Ok i
  | None => Raise (KeyError name)
  end.

(** Lines 168-173: [groupby('ProjectTitle').agg({...}).reset_index()] and
    the rename of the count column. *)
Definition project_summary (df : DataFrame) : Outcome DataFrame :=
  match need_column df "ProjectTitle" with
  | Raise e => Raise e
  | Ok it =>
  match need_column df "TotalFunding" with
  | Raise e => Raise e
  | Ok ifu =>
  match need_column df "ProjectStatus" with
  | Raise e => Raise e
  | Ok ist =>
  match need_column df "OrganismName" with
  | Raise e => Raise e
  | Ok ion =>
      Ok (mkFrame ["ProjectTitle"; "TotalFunding"; "ProjectStatus"; "OrganismCount"]
            ((λ k, let g := rows_where it k (rows df) in
                   [k;
                    agg_first ((λ r, cell r ifu) <$> g);
                    agg_first ((λ r, cell r ist) <$> g);
                    agg_count ((λ r, cell r ion) <$> g)])
             <$> group_keys it (rows df)))
  end end end end.

(** [f"{v:.2f}"], exact for the integers a float represents exactly. *)
Definition format_2f (v : PyVal) : Outcome string :=
  match v with
  | VInt z | VNpInt z => Ok (pretty z +:+ ".00")
  | VStr _ => Raise ValueError
  | VNone => Raise TypeError
  end.

(** [series.iloc[0]] *)
Definition series_iloc0 (vs : list PyVal) : Outcome PyVal :=
  match vs with
  | [] => Raise IndexError
  | v :: _ => Ok (frame_scalar v)
  end.

(** Lines 183-190: the expandable detail block of one project. *)
Definition project_details (df : DataFrame) (project : PyVal) : M unit :=
  emit (StExpander ("Project: " +:+ py_str project));;
  titles ← lift (column df "ProjectTitle");
  let project_data :=
    mkFrame (columns df)
      (default [] ((λ i, rows_where i project (rows df))
                   <$> col_index "ProjectTitle" (columns df))) in
  funding ← lift (column project_data "TotalFunding");
  f ← lift (series_iloc0 funding);
  amount ← lift (format_2f f);
  emit (StWrite (Text ("Total Funding: $" +:+ amount +:+ " million")));;
  status ← lift (column project_data "ProjectStatus");
  s ← lift (series_iloc0 status);
  emit (StWrite (Text ("Status: " +:+ py_str s)));;
  emit (StWrite (Text ("Number of Organisms: " +:+
                       pretty (length (rows project_data)))));;
  emit (StWrite (Text "Associated Organisms:"));;
  for_each (rows project_data) (λ row,
    name ← lift (row_get df row "OrganismName");
    domain ← lift (row_get df row "Domain");
    ecosystem ← lift (row_get df row "EcosystemName");
    emit (StWrite (Text ("- " +:+ py_str name +:+ " (" +:+ py_str domain +:+
                         ", " +:+ py_str ecosystem +:+ ")")))).

(** [administrator_view], lines 136-190. *)
Definition administrator_queries : list string :=
  ["List all projects with their status and count of associated organisms";
   "Find organisms without any associated projects";
   "Calculate the duration of each project and list associated organisms";
   "View temperature statistics for specific ecosystems";
   "High-funded projects and associated organisms"].

Definition administrator_view (ui : UI)
    (hostname user password database : string) : M unit :=
  emit (StHeader "Administrator View");;
  let query := st_selectbox ui "Select a query:" administrator_queries in
  if bool_decide (query =
       Some "List all projects with their status and count of associated organisms")
  then show_table "SELECT * FROM Admin_Projects_Status_OrganismCount"
         hostname user password database;; mret tt
  else if bool_decide (query =
       Some "Find organisms without any associated projects")
  then show_table "SELECT * FROM Admin_Organisms_Without_Projects"
         hostname user password database;; mret tt
  else if bool_decide (query =
       Some "Calculate the duration of each project and list associated organisms")
  then show_table "SELECT * FROM Admin_Project_Duration_Organisms"
         hostname user password database;; mret tt
  else if bool_decide (query =
       Some "View temperature statistics for specific ecosystems")
  then show_table "SELECT * FROM Admin_Temperature_Stats_By_Ecosystem"
         hostname user password database;; mret tt
  else if bool_decide (query =
       Some "High-funded projects and associated organisms")
  then
    df ← show_table "SELECT * FROM Admin_High_Funded_Projects"
           hostname user password database;
    summary ← lift (project_summary df);
    emit (StPlotlyChart "High-Funded Projects (>$2 million)");;
    emit (StSubheader "Project Details");;
    titles ← lift (column summary "ProjectTitle");
    for_each (unique titles) (project_details df)
  else mret tt.

(** [main], lines 193-238. *)
Definition default_hostname : string :=
  "https://database-final--group-4-dx7hxc44sd6lkmqvuwbrat.streamlit.app".

Definition pages : list string :=
  ["Student View"; "Researcher View"; "Administrator View"; "Organism Profiles"].

Definition placeholder : string := "Please connect to the database to proceed.".

(** Lines 207-215: the Connect button. *)
Definition connect_button (ui : UI) (hostname user password database : string)
  : M unit :=
  if st_button ui "Connect" then
    conn ← connect_to_db hostname user password database;
    match conn with
    | Some _ =>
        emit (SidebarSuccess "Connected to the database successfully!");;
        session_set "connected" true;;
        emit ConnClose
    | None =>
        emit (SidebarError
                "Failed to connect to the database. Check your credentials.");;
        session_set "connected" false
    end
  else mret tt.

(** Lines 219-236: what a connected session sees. *)
Definition connected_page (ui : UI) (hostname user password database : string)
  : M unit :=
  let search_term := st_text_input ui "Search for organisms or projects:" "" in
  (if bool_decide (search_term = "") then mret tt
   else search_results ← search_database search_term
                           hostname user password database;
        emit (SidebarWrite (Frame search_results)));;
  let page := st_selectbox ui "Select a page:" pages in
  if bool_decide (page = Some "Student View")
  then student_view ui hostname user password database
  else if bool_decide (page = Some "Researcher View")
  then researcher_view ui hostname user password database
  else if bool_decide (page = Some "Administrator View")
  then administrator_view ui hostname user password database
  else if bool_decide (page = Some "Organism Profiles")
  then
    names_df ← execute_query "SELECT Name FROM Organism"
                 hostname user password database None;
    names ← lift (column names_df "Name");
    let organism_name :=
      default VNone
        (st_selectbox ui "Select an organism:" (tolist_scalar <$> names)) in
    organism_profile organism_name hostname user password database
  else mret tt.

Definition main (ui : UI) : M unit :=
  emit (StTitle "Biological Research Database");;
  let hostname := st_text_input ui "Database Hostname" default_hostname in
  let user := st_text_input ui "Database User" "root" in
  let password := st_text_input ui "Database Password" "password" in
  let database := "ProjectDB" in
  known ← session_has "connected";
  (if (known : bool) then mret tt else session_set "connected" false);;
  connect_button ui hostname user password database;;
  connected ← session_get "connected";
  if (connected : bool)
  then connected_page ui hostname user password database
  else emit (StWrite (Text placeholder)).

(** A session: the script is rerun on every interaction, each rerun starting
    from the state the previous one left. *)
Definition initial : St := mkSt 0 ∅.


(** ** Reading a trace *)

(** The statements handed to [cursor.execute], in order, each with its
    bound parameters ([None]: the one-argument call). *)
Definition executed (es : list Event) : list (string * option (list PyVal)) :=
  omap (λ e, match e with CursorExecute q ps => Some (q, ps) | _ => None end) es.

(** The arguments of the connection attempts, in order. *)
Definition connections (es : list Event) : list ConnectArgs :=
  omap (λ e, match e with MySQLConnect a => Some a | _ => None end) es.

(** The plain-integer equivalent of a parameter. *)
Definition plain_equivalent (p : PyVal) : PyVal :=
  match p with VNpInt z => VInt z | _ => p end.

(** The number of [%s] placeholders in a statement. *)
Fixpoint count_placeholders (s : string) : nat :=
  match s with
  | EmptyString => 0
  | String c r =>
      match r with
      | String c' r' =>
          if Ascii.eqb c "%" && Ascii.eqb c' "s"
          then S (count_placeholders r')
          else count_placeholders r
      | EmptyString => 0
      end
  end.



(** The parameters [execute_query] hands to the cursor for a given [params]
    argument. *)
Definition bound (params : option (list PyVal)) : option (list PyVal) :=
  if truthy_params params then Some (normalize_params (default [] params)) else None.


(** The connector calls of one answered query. *)
Definition query_events (a : ConnectArgs) (q : string)
    (ps : option (list PyVal)) : list Event :=
  [MySQLConnect a; CursorExecute q ps; CursorFetchall; CursorClose; ConnClose].

(** *** The session flag *)

(** The connection arguments [main] builds from the three text inputs and
    the fixed database name (lines 197-200). *)
Definition main_args (ui : UI) : ConnectArgs :=
  mkArgs (st_text_input ui "Database Hostname" default_hostname) 3306
         (st_text_input ui "Database User" "root")
         (st_text_input ui "Database Password" "password")
         "ProjectDB".

(** The flag a rerun starts from: an absent key reads as false once lines
    203-204 have run. *)
Definition flag_before (s : St) : bool :=
  default false (session_state s !! "connected").

(** The flag at the gate of line 218. *)
Definition flag_after (ui : UI) (w : World) (s : St) : bool :=
  if st_button ui "Connect"
  then bool_decide (accept w (attempts s) (main_args ui) = None)
  else flag_before s.

(** What pressing Connect puts in the trace. *)
Definition button_events (ui : UI) (w : World) (s : St) : list Event :=
  if st_button ui "Connect" then
    match accept w (attempts s) (main_args ui) with
    | None =>
        [MySQLConnect (main_args ui);
         SidebarSuccess "Connected to the database successfully!";
         ConnClose]
    | Some err =>
        [MySQLConnect (main_args ui);
         StError ("Error: " +:+ err);
         SidebarError "Failed to connect to the database. Check your credentials."]
    end
  else [].

(** The state in which the gate of line 218 is reached. *)
Definition gate_state (ui : UI) (w : World) (s : St) : St :=
  mkSt (if st_button ui "Connect" then S (attempts s) else attempts s)
       (<["connected" := flag_after ui w s]> (session_state s)).

(** An event that is not a connection attempt, or is one made with [a]. *)
Definition connects_with (a : ConnectArgs) (e : Event) : Prop :=
  match e with MySQLConnect a' => a' = a | _ => True end.

(** A computation that connects only with [a] and leaves the session state
    alone. *)
Definition confined (a : ConnectArgs) {A} (m : M A) : Prop :=
  ∀ w s, Forall (connects_with a) (events (m w s)) ∧
         session_state (final (m w s)) = session_state s.

(** ** Sample worlds and sessions *)

(** The table of the specification's aggregation example, with the two
    columns the detail block also reads. *)
Definition funded_example : DataFrame :=
  mkFrame ["ProjectTitle"; "TotalFunding"; "ProjectStatus"; "OrganismName";
           "Domain"; "EcosystemName"]
    [[VStr "P1"; VInt 3; VStr "Active"; VStr "OrgA"; VStr "Archaea"; VStr "Vent"];
     [VStr "P1"; VInt 3; VStr "Active"; VStr "OrgB"; VStr "Bacteria"; VStr "Vent"];
     [VStr "P2"; VInt 5; VStr "Closed"; VStr "OrgC"; VStr "Bacteria"; VStr "Ice"]].

(** A project without organisms, as an outer join reports it: one row, the
    organism name NULL. *)
Definition funded_without_organism : DataFrame :=
  mkFrame ["ProjectTitle"; "TotalFunding"; "ProjectStatus"; "OrganismName"]
    [[VStr "P1"; VInt 3; VStr "Active"; VNone]].


(** A project whose first row has no funding amount. *)
Definition funded_null_first : DataFrame :=
  mkFrame ["ProjectTitle"; "TotalFunding"; "ProjectStatus"; "OrganismName"]
    [[VStr "P1"; VNone; VStr "Active"; VStr "OrgA"];
     [VStr "P1"; VInt 3; VStr "Active"; VStr "OrgB"]].

(** A server that refuses every connection. *)
Definition offline : World :=
  mkWorld (λ _ _, Some "Can't connect to MySQL server")
          (λ _ _ _, inl "MySQL Connection not available").

(** A server that accepts every connection and knows one organism. *)
Definition lab : World :=
  mkWorld (λ _ _, None)
    (λ _ q ps,
       if bool_decide (q = profile_query) then
         if bool_decide (ps = Some [VStr "Pyrolobus fumarii"])
         then inr (["OrganismID"; "Name"; "Domain"],
                   [[VInt 7; VStr "Pyrolobus fumarii"; VStr "Archaea"]])
         else inr (["OrganismID"; "Name"; "Domain"], [])
       else if bool_decide (q = conditions_query) then
         inr (["OrganismID"; "OptimalTemp"], [[VInt 7; VInt 106]])
       else if bool_decide (q = projects_query) then
         inr (["Title"; "Status"], [[VStr "Deep vents"; VStr "Active"]])
       else inr (["Name"; "Domain"],
                 [[VStr "Pyrolobus fumarii"; VStr "Archaea"]])).

(** A user who touched nothing. *)
Definition idle : UI := mkUI (λ _, None) (λ _, false) (λ _, 0%nat) (λ _, []).

(** A user who picked Archaea and then Eukarya in the domain filter. *)
Definition two_domains : UI :=
  mkUI (λ _, None) (λ _, false) (λ _, 0%nat) (λ _, [0%nat; 2%nat]).

(** A user who typed the same text into every text input and pressed
    Connect. *)
Definition typist : UI :=
  mkUI (λ _, Some "labdb") (λ _, true) (λ _, 0%nat) (λ _, []).

(** ** Vocabulary for whole reruns *)

(** The number of [conn.close()] calls in a trace. *)
Definition closes (es : list Event) : nat :=
  length (omap (λ e, match e with ConnClose => Some tt | _ => None end) es).

(** The number of [cursor.close()] calls in a trace. *)
Definition cursor_closes (es : list Event) : nat :=
  length (omap (λ e, match e with CursorClose => Some tt | _ => None end) es).

(** A property of traces that holds of the empty trace and of the
    concatenation of two traces that have it. *)
Class Composable (P : list Event → Prop) : Prop := {
  composable_nil : P [];
  composable_app es es' : P es → P es' → P (es ++ es')
}.

(** [P] holds of the trace of [m] in world [w], whatever the state [m]
    starts from. *)
Definition holds (w : World) (P : list Event → Prop) {A} (m : M A) : Prop :=
  ∀ s, P (events (m w s)).

(** The statement of line 88 for [n] selected values. *)
Definition in_list_query (n : nat) : string :=
  base_query +:+ " WHERE Domain IN (" +:+ join "," (replicate n "%s") +:+ ")".

(** The statements of the researcher view, in the order of its labels
    (lines 119-133). *)
Definition researcher_statements : list string :=
  ["SELECT * FROM Researcher_Extreme_Temperature_Organisms";
   "SELECT * FROM Researcher_Funding_Aquatic_Projects";
   "SELECT * FROM Researcher_Organisms_Projects_Domain_Ecosystem";
   "SELECT * FROM Researcher_Organism_Temperature_Project"].

(** The statements of the administrator view, in the order of its labels
    (lines 147-164). *)
Definition administrator_statements : list string :=
  ["SELECT * FROM Admin_Projects_Status_OrganismCount";
   "SELECT * FROM Admin_Organisms_Without_Projects";
   "SELECT * FROM Admin_Project_Duration_Organisms";
   "SELECT * FROM Admin_Temperature_Stats_By_Ecosystem";
   "SELECT * FROM Admin_High_Funded_Projects"].

(** The statements the pages can run, the domain filter apart. *)
Definition page_statements : list string :=
  [base_query; "SELECT * FROM Student_Avg_Optimum_Temp_By_Ecosystem"] ++
  researcher_statements ++ administrator_statements ++
  ["SELECT Name FROM Organism"; profile_query; conditions_query; projects_query].

(** A statement whose text is fixed in the program, up to the number of
    placeholders of the domain filter. *)
Definition fixed_text (statements : list string) (q : string) : Prop :=
  q ∈ statements ∨ ∃ n, q = in_list_query n.

(** Every statement handed to a cursor has its text among [statements]. *)
Definition runs_only (statements : list string) (es : list Event) : Prop :=
  Forall (λ x, fixed_text statements x.1) (executed es).

(** As many connections closed as attempted. *)
Definition balanced (es : list Event) : Prop :=
  closes es = length (connections es).

(** No more connections closed than attempted. *)
Definition closes_within (es : list Event) : Prop :=
  (closes es ≤ length (connections es))%nat.

(** A store that accepts every connection and answers every statement. *)
Definition healthy (w : World) : Prop :=
  (∀ n a, accept w n a = None) ∧
  (∀ n q ps, ∃ t, answer w n q ps = inr t).

(** A server that cannot be reached with the arguments [a]. *)
Definition unreachable (w : World) (a : ConnectArgs) : Prop :=
  ∀ n, ∃ err, accept w n a = Some err.

(** The first bytes of a string. *)
Fixpoint starts_with (prefix s : string) : bool :=
  match prefix, s with
  | EmptyString, _ => true
  | String c p, String c' s' => Ascii.eqb c c' && starts_with p s'
  | String _ _, EmptyString => false
  end.

(** The statement is a SELECT, after leading whitespace. *)
Definition is_select (q : string) : bool := starts_with "SELECT " (lstrip q).

(** The line the detail block writes for one row (line 190). *)
Definition organism_line (df : DataFrame) (row : list PyVal)
    (iname idom ieco : nat) : Event :=
  StWrite (Text ("- " +:+ py_str (frame_scalar (cell row iname)) +:+ " (" +:+
                 py_str (frame_scalar (cell row idom)) +:+ ", " +:+
                 py_str (frame_scalar (cell row ieco)) +:+ ")")).

(** A server that accepts every connection and rejects every statement. *)
Definition broken_schema : World :=
  mkWorld (λ _ _, None) (λ _ _ _, inl "Table 'ProjectDB.Organism' doesn't exist").

(** A server that answers every statement with the table of the
    aggregation example. *)
Definition funded_store : World :=
  mkWorld (λ _ _, None)
          (λ _ _ _, inr (columns funded_example, rows funded_example)).

(** A server whose tables are empty. *)
Definition empty_store : World :=
  mkWorld (λ _ _, None) (λ _ _ _, inr (["Name"], [])).

(** A user who opened the page and the entry of the given indices and, when
    asked, typed a search term. *)
Definition visitor (page entry : nat) (term : option string) : UI :=
  mkUI (λ l, if bool_decide (l = "Search for organisms or projects:")
             then term else None)
       (λ _, false)
       (λ l, if bool_decide (l = "Select a page:") then page else entry)
       (λ _, []).

(** An event the page shows, as opposed to a call to the connector. *)
Definition rendering (e : Event) : Prop :=
  match e with
  | MySQLConnect _ | CursorExecute _ _ | CursorFetchall | CursorClose
  | ConnClose | StError _ => False
  | _ => True
  end.

(** A session that has connected once. *)
Definition connected : St := mkSt 1 {["connected" := true]}.

(** ** Properties of the executor *)

Lemma bind_ok {A B} (m : M A) (f : A → M B) w s a :
  outcome (m w s) = Ok a →
  (m ≫= f) w s =
    mkRes (outcome (f a w (final (m w s))))
          (events (m w s) ++ events (f a w (final (m w s))))
          (final (f a w (final (m w s)))).
Proof. intros H. unfold mbind, M_bind. cbv zeta. by rewrite H. Qed.

Lemma connect_to_db_accepted hostname user password database w s :
  accept w (attempts s) (mkArgs hostname 3306 user password database) = None →
  connect_to_db hostname user password database w s =
    mkRes (Ok (Some tt))
          [MySQLConnect (mkArgs hostname 3306 user password database)]
          (mkSt (S (attempts s)) (session_state s)).
Proof. intros H. unfold connect_to_db, mbind, M_bind, mysql_connect. simpl. by rewrite H. Qed.

Lemma connect_to_db_refused hostname user password database w s err :
  accept w (attempts s) (mkArgs hostname 3306 user password database) = Some err →
  connect_to_db hostname user password database w s =
    mkRes (Ok None)
          [MySQLConnect (mkArgs hostname 3306 user password database);
           StError ("Error: " +:+ err)]
          (mkSt (S (attempts s)) (session_state s)).
Proof. intros H. unfold connect_to_db, mbind, M_bind, mysql_connect. simpl. by rewrite H. Qed.

(** [connect_to_db] never raises: it gives a handle or the failure marker. *)
Lemma connect_to_db_cases hostname user password database w s :
  let a := mkArgs hostname 3306 user password database in
  (accept w (attempts s) a = None ∧
   outcome (connect_to_db hostname user password database w s) = Ok (Some tt)) ∨
  (∃ err, accept w (attempts s) a = Some err ∧
   outcome (connect_to_db hostname user password database w s) = Ok None).
Proof.
  intros a. destruct (accept w (attempts s) a) as [err|] eqn:E.
  - right. exists err. split; [done|]. by rewrite (connect_to_db_refused _ _ _ _ _ _ err).
  - left. split; [done|]. by rewrite connect_to_db_accepted.
Qed.

(** What [execute_query] does on each of its three paths. *)
Lemma execute_query_refused query hostname user password database params w s err :
  accept w (attempts s) (mkArgs hostname 3306 user password database) = Some err →
  execute_query query hostname user password database params w s =
    mkRes (Ok empty_frame)
          [MySQLConnect (mkArgs hostname 3306 user password database);
           StError ("Error: " +:+ err)]
          (mkSt (S (attempts s)) (session_state s)).
Proof.
  intros H. unfold execute_query.
  rewrite (bind_ok _ _ _ _ None); rewrite (connect_to_db_refused _ _ _ _ _ _ err) by done; done.
Qed.

Lemma execute_query_answered query hostname user password database params w s cols rs :
  accept w (attempts s) (mkArgs hostname 3306 user password database) = None →
  answer w (attempts s) query (bound params) = inr (cols, rs) →
  execute_query query hostname user password database params w s =
    mkRes (Ok (mkFrame cols rs))
          [MySQLConnect (mkArgs hostname 3306 user password database);
           CursorExecute query (bound params); CursorFetchall;
           CursorClose; ConnClose]
          (mkSt (S (attempts s)) (session_state s)).
Proof.
  intros H Ha. unfold execute_query.
  rewrite (bind_ok _ _ _ _ (Some tt)); rewrite connect_to_db_accepted by done; [|done].
  unfold bound in *. cbn [outcome events final].
  destruct (truthy_params params);
    unfold mbind, M_bind, cursor_execute; cbn; rewrite Ha; reflexivity.
Qed.

Lemma execute_query_failed query hostname user password database params w s msg :
  accept w (attempts s) (mkArgs hostname 3306 user password database) = None →
  answer w (attempts s) query (bound params) = inl msg →
  execute_query query hostname user password database params w s =
    mkRes (Raise (MySQLError msg))
          [MySQLConnect (mkArgs hostname 3306 user password database);
           CursorExecute query (bound params)]
          (mkSt (S (attempts s)) (session_state s)).
Proof.
  intros H Ha. unfold execute_query.
  rewrite (bind_ok _ _ _ _ (Some tt)); rewrite connect_to_db_accepted by done; [|done].
  unfold bound in *. cbn [outcome events final].
  destruct (truthy_params params);
    unfold mbind, M_bind, cursor_execute; cbn; rewrite Ha; reflexivity.
Qed.

(** The three paths together. *)
Lemma execute_query_run query hostname user password database params w s :
  let a := mkArgs hostname 3306 user password database in
  execute_query query hostname user password database params w s =
    match accept w (attempts s) a with
    | Some err =>
        mkRes (Ok empty_frame) [MySQLConnect a; StError ("Error: " +:+ err)]
              (mkSt (S (attempts s)) (session_state s))
    | None =>
        match answer w (attempts s) query (bound params) with
        | inr t =>
            mkRes (Ok (mkFrame t.1 t.2))
                  [MySQLConnect a; CursorExecute query (bound params);
                   CursorFetchall; CursorClose; ConnClose]
                  (mkSt (S (attempts s)) (session_state s))
        | inl msg =>
            mkRes (Raise (MySQLError msg))
                  [MySQLConnect a; CursorExecute query (bound params)]
                  (mkSt (S (attempts s)) (session_state s))
        end
    end.
Proof.
  intros a. destruct (accept w (attempts s) a) as [err|] eqn:E.
  - by apply execute_query_refused.
  - destruct (answer w (attempts s) query (bound params)) as [msg|[cols rs]] eqn:Ea.
    + by apply execute_query_failed.
    + by apply execute_query_answered.
Qed.

(** C1. Whatever the statement and the connection parameters, when
    [connect_to_db] gives the failure marker [None], [execute_query] returns
    the empty table (no rows, no columns) at once: it does not raise, nothing
    is handed to a cursor, and it does nothing beyond the connection
    attempt. *)
Theorem execute_query_connect_failure
    query hostname user password database params w s :
  outcome (connect_to_db hostname user password database w s) = Ok None →
  let r := execute_query query hostname user password database params w s in
  outcome r = Ok empty_frame ∧
  rows empty_frame = [] ∧ columns empty_frame = [] ∧
  executed (events r) = [] ∧
  events r = events (connect_to_db hostname user password database w s) ∧
  final r = final (connect_to_db hostname user password database w s).
Proof.
  intros H r. subst r.
  destruct (connect_to_db_cases hostname user password database w s)
    as [[_ Hok]|[err [Herr _]]]; [congruence|].
  rewrite (execute_query_refused _ _ _ _ _ _ _ _ err Herr).
  rewrite (connect_to_db_refused _ _ _ _ _ _ err Herr).
  repeat split.
Qed.

Lemma execute_query_connect_failure_witness :
  outcome (connect_to_db "db.example" "root" "password" "ProjectDB"
             offline initial) = Ok None ∧
  outcome (execute_query base_query "db.example" "root" "password" "ProjectDB"
             None offline initial) = Ok empty_frame.
Proof.
  split; [reflexivity|].
  apply (execute_query_connect_failure base_query "db.example" "root"
           "password" "ProjectDB" None offline initial).
  reflexivity.
Defined.

Lemma normalize_params_plain params :
  normalize_params params = plain_equivalent <$> params.
Proof.
  unfold normalize_params. apply list_fmap_ext. intros _ [| | |] _; reflexivity.
Qed.

Lemma plain_equivalent_idemp p :
  plain_equivalent (plain_equivalent p) = plain_equivalent p.
Proof. by destruct p. Qed.

Lemma bound_plain params :
  bound (Some (plain_equivalent <$> params)) = bound (Some params).
Proof.
  unfold bound.
  replace (truthy_params (Some (plain_equivalent <$> params)))
    with (truthy_params (Some params)) by (by destruct params).
  destruct (truthy_params (Some params)); [|reflexivity].
  cbn [default from_option id]. rewrite !normalize_params_plain. f_equal.
  unfold id. rewrite <- list_fmap_compose. apply list_fmap_ext.
  intros _ x _. apply plain_equivalent_idemp.
Qed.

Lemma executed_execute_query query hostname user password database params w s :
  executed (events (execute_query query hostname user password database
                      params w s)) =
    match accept w (attempts s) (mkArgs hostname 3306 user password database) with
    | None => [(query, bound params)]
    | Some _ => []
    end.
Proof.
  rewrite execute_query_run.
  destruct (accept _ _ _); [reflexivity|].
  by destruct (answer _ _ _ _) as [|[]].
Qed.

(** C6. In a parameter tuple handed to [execute_query], every numpy integer
    is replaced by the plain integer of the same value and every other
    element is left as it is, so that no numpy integer is bound; and a call
    with the wrapped values is the same call, with the same bound
    parameters, as the call with their plain-integer equivalents. *)
Theorem execute_query_normalizes
    query hostname user password database params w s :
  normalize_params params = plain_equivalent <$> params ∧
  Forall (λ p, is_np_integer p = false) (normalize_params params) ∧
  executed (events (execute_query query hostname user password database
                      (Some params) w s)) =
    match accept w (attempts s) (mkArgs hostname 3306 user password database) with
    | None => [(query, match params with
                       | [] => None
                       | _ :: _ => Some (plain_equivalent <$> params)
                       end)]
    | Some _ => []
    end ∧
  execute_query query hostname user password database (Some params) w s =
  execute_query query hostname user password database
    (Some (plain_equivalent <$> params)) w s.
Proof.
  split; [apply normalize_params_plain|]. split.
  { rewrite normalize_params_plain. apply Forall_fmap, Forall_true.
    by intros [| | |]. }
  split.
  { rewrite executed_execute_query. destruct (accept _ _ _); [done|].
    unfold bound. destruct params; [done|].
    cbn -[normalize_params]. by rewrite normalize_params_plain. }
  by rewrite !execute_query_run, bound_plain.
Qed.

(** C10. A call of [execute_query] with [params] the empty tuple is the
    call with [params] left out: the branch is taken on the truthiness of
    [params], so the statement goes to the cursor verbatim, in the
    one-argument form, nothing is bound and nothing is normalized. *)
Theorem execute_query_empty_params query hostname user password database w s :
  truthy_params (Some []) = truthy_params None ∧
  execute_query query hostname user password database (Some []) w s =
  execute_query query hostname user password database None w s ∧
  executed (events (execute_query query hostname user password database
                      (Some []) w s)) =
    match accept w (attempts s) (mkArgs hostname 3306 user password database) with
    | None => [(query, None)]
    | Some _ => []
    end.
Proof.
  split; [reflexivity|]. split; [reflexivity|].
  by rewrite executed_execute_query.
Qed.

(** ** Traces of composed computations *)

Lemma events_bind {A B} (m : M A) (f : A → M B) w s :
  events ((m ≫= f) w s) =
    events (m w s) ++
    match outcome (m w s) with
    | Ok a => events (f a w (final (m w s)))
    | Raise _ => []
    end.
Proof.
  unfold mbind, M_bind. cbv zeta.
  destruct (outcome (m w s)); cbn; by rewrite ?app_nil_r.
Qed.

Lemma executed_app es es' : executed (es ++ es') = executed es ++ executed es'.
Proof. apply omap_app. Qed.

Lemma executed_bind {A B} (m : M A) (f : A → M B) w s :
  executed (events ((m ≫= f) w s)) =
    executed (events (m w s)) ++
    match outcome (m w s) with
    | Ok a => executed (events (f a w (final (m w s))))
    | Raise _ => []
    end.
Proof. rewrite events_bind, executed_app. by destruct (outcome (m w s)). Qed.

Lemma outcome_execute_query query hostname user password database params w s :
  outcome (execute_query query hostname user password database params w s) =
    match accept w (attempts s) (mkArgs hostname 3306 user password database) with
    | Some _ => Ok empty_frame
    | None =>
        match answer w (attempts s) query (bound params) with
        | inr t => Ok (mkFrame t.1 t.2)
        | inl msg => Raise (MySQLError msg)
        end
    end.
Proof.
  rewrite execute_query_run.
  destruct (accept _ _ _); [reflexivity|]. by destruct (answer _ _ _ _).
Qed.


Lemma count_placeholders_list n :
  count_placeholders (join "," (replicate n "%s") +:+ ")") = n.
Proof.
  induction n as [|n IH]; [reflexivity|].
  destruct n as [|n]; [reflexivity|].
  change (join "," (replicate (S (S n)) "%s") +:+ ")")
    with (String "%" (String "s" (String ","
            (join "," (replicate (S n) "%s") +:+ ")")))).
  destruct (join "," (replicate (S n) "%s") +:+ ")") as [|c r];
    [discriminate IH|].
  change (S (count_placeholders (String c r)) = S (S n)).
  by rewrite IH.
Qed.

Lemma count_placeholders_filtered (domain_filter : list string) :
  count_placeholders (filtered_query domain_filter) = length domain_filter.
Proof.
  unfold filtered_query, base_query.
  pose proof (count_placeholders_list (length domain_filter)) as H. revert H.
  generalize (join "," (replicate (length domain_filter) "%s") +:+ ")").
  intros t Ht.
  destruct t as [|c r].
  - cbn in Ht. rewrite <- Ht. reflexivity.
  - rewrite <- Ht. reflexivity.
Qed.

Lemma normalize_params_strings (l : list string) :
  normalize_params (VStr <$> l) = VStr <$> l.
Proof.
  rewrite normalize_params_plain, <- list_fmap_compose. by apply list_fmap_ext.
Qed.

Lemma bound_strings (l : list string) :
  l ≠ [] → bound (Some (VStr <$> l)) = Some (VStr <$> l).
Proof.
  intros Hl. destruct l as [|x l]; [done|]. unfold bound.
  change (truthy_params (Some (VStr <$> x :: l))) with true.
  unfold default, from_option, id. by rewrite normalize_params_strings.
Qed.

Lemma executed_emit e (w : World) s :
  executed (events (emit e w s)) =
    match e with CursorExecute q ps => [(q, ps)] | _ => [] end.
Proof. by destruct e. Qed.

(** What follows the query in the first entry of the student view draws
    the table and the chart; it hands nothing to a cursor. *)
Lemma executed_student_chart df w s :
  executed (events ((emit (StDataframe df);;
                     lift (column df "Domain");;
                     emit (StPlotlyChart "Organism Count by Domain")) w s)) = [].
Proof.
  rewrite !executed_bind. cbn [emit lift outcome events final].
  destruct (column df "Domain"); reflexivity.
Qed.

(** C2. In the student view's entry that lists organisms with their
    taxonomy and ecosystem, for every selection made in the domain filter:
    with nothing selected the base statement goes to the cursor in the
    one-argument form, with no bound parameters; with something selected
    the statement is the base statement followed by a WHERE Domain IN (...)
    clause that has one placeholder per selected value, and the bound
    parameters are the selected values, in the order selected.  (A refused
    connection hands nothing to a cursor.) *)
Theorem student_view_domain_filter ui hostname user password database w s :
  st_selectbox ui "Select a query:" student_queries =
    Some "List organisms with their taxonomic information and ecosystem" →
  let domain_filter := st_multiselect ui "Filter by Domain:" domain_options in
  executed (events (student_view ui hostname user password database w s)) =
    match accept w (attempts s) (mkArgs hostname 3306 user password database) with
    | Some _ => []
    | None =>
        [match domain_filter with
         | [] => (base_query, None)
         | _ :: _ => (filtered_query domain_filter, Some (VStr <$> domain_filter))
         end]
    end ∧
  base_query = "SELECT * FROM Student_Organism_Taxonomy_Ecosystem" ∧
  count_placeholders base_query = 0%nat ∧
  filtered_query domain_filter =
    base_query +:+ " WHERE Domain IN (" +:+
    join "," (replicate (length domain_filter) "%s") +:+ ")" ∧
  count_placeholders (filtered_query domain_filter) = length domain_filter ∧
  length (VStr <$> domain_filter) = length domain_filter.
Proof.
  intros Hq domain_filter.
  split; [|repeat split; [apply count_placeholders_filtered|apply length_fmap]].
  unfold student_view. rewrite executed_bind, executed_emit.
  cbn [emit outcome final app]. rewrite Hq, bool_decide_true by done.
  fold domain_filter.
  destruct domain_filter as [|x l] eqn:E.
  - rewrite executed_bind, executed_execute_query, outcome_execute_query.
    destruct (accept _ _ _); [apply executed_student_chart|].
    cbn [bound truthy_params].
    destruct (answer _ _ _ _) as [msg|t]; [reflexivity|].
    by rewrite executed_student_chart.
  - rewrite executed_bind, executed_execute_query, outcome_execute_query.
    destruct (accept _ _ _); [apply executed_student_chart|].
    rewrite (bound_strings (x :: l)) by done.
    destruct (answer _ _ _ _) as [msg|t]; [reflexivity|].
    by rewrite executed_student_chart.
Qed.

Lemma student_view_domain_filter_witness :
  st_selectbox two_domains "Select a query:" student_queries =
    Some "List organisms with their taxonomic information and ecosystem" ∧
  executed (events (student_view two_domains "db.example" "root" "password"
                      "ProjectDB" lab initial)) =
    [("SELECT * FROM Student_Organism_Taxonomy_Ecosystem WHERE Domain IN (%s,%s)",
      Some [VStr "Archaea"; VStr "Eukarya"])].
Proof.
  split; [reflexivity|].
  apply (student_view_domain_filter two_domains "db.example" "root" "password"
           "ProjectDB" lab initial).
  reflexivity.
Defined.


Lemma connections_execute_query query hostname user password database params w s :
  connections (events (execute_query query hostname user password database
                         params w s)) =
    [mkArgs hostname 3306 user password database].
Proof.
  rewrite execute_query_run.
  destruct (accept _ _ _); [reflexivity|]. by destruct (answer _ _ _ _).
Qed.

(** C4. For every organism name whose profile lookup comes back with zero
    rows, extracting the OrganismID raises the out-of-range error
    [IndexError] and the profile is not rendered: nothing happens after the
    lookup, no subheader or table is written, and the two dependent queries
    are not attempted. *)
Theorem organism_profile_zero_rows
    organism_name hostname user password database w s info :
  outcome (execute_query profile_query hostname user password database
             (Some [organism_name]) w s) = Ok info →
  rows info = [] →
  let r := organism_profile organism_name hostname user password database w s in
  outcome r = Raise IndexError ∧
  events r = events (execute_query profile_query hostname user password
                       database (Some [organism_name]) w s) ∧
  Forall (λ e, match e with StSubheader _ | StWrite _ => False | _ => True end)
         (events r) ∧
  connections (events r) = [mkArgs hostname 3306 user password database].
Proof.
  intros Hinfo Hrows r.
  assert (Hr : r = mkRes (Raise IndexError)
                 (events (execute_query profile_query hostname user password
                            database (Some [organism_name]) w s))
                 (final (execute_query profile_query hostname user password
                            database (Some [organism_name]) w s))).
  { subst r. unfold organism_profile.
    rewrite (bind_ok _ _ _ _ info Hinfo).
    unfold mbind at 1, M_bind at 1, lift, iloc0. cbv zeta. rewrite Hrows.
    cbn [outcome events final]. by rewrite app_nil_r. }
  rewrite Hr. cbn [outcome events]. repeat split.
  - rewrite execute_query_run.
    destruct (accept _ _ _); [by repeat constructor|].
    destruct (answer _ _ _ _); by repeat constructor.
  - apply connections_execute_query.
Qed.

Lemma organism_profile_zero_rows_witness :
  outcome (execute_query profile_query "db.example" "root" "password"
             "ProjectDB" (Some [VStr "Unknown organism"]) lab initial) =
    Ok (mkFrame ["OrganismID"; "Name"; "Domain"] []) ∧
  outcome (organism_profile (VStr "Unknown organism") "db.example" "root"
             "password" "ProjectDB" lab initial) = Raise IndexError.
Proof.
  split; [reflexivity|].
  apply (organism_profile_zero_rows (VStr "Unknown organism") "db.example"
           "root" "password" "ProjectDB" lab initial
           (mkFrame ["OrganismID"; "Name"; "Domain"] []));
    reflexivity.
Defined.

Lemma outcome_bind {A B} (m : M A) (f : A → M B) w s :
  outcome ((m ≫= f) w s) =
    match outcome (m w s) with
    | Ok a => outcome (f a w (final (m w s)))
    | Raise e => Raise e
    end.
Proof. unfold mbind, M_bind. cbv zeta. by destruct (outcome (m w s)). Qed.

Lemma final_bind {A B} (m : M A) (f : A → M B) w s :
  final ((m ≫= f) w s) =
    match outcome (m w s) with
    | Ok a => final (f a w (final (m w s)))
    | Raise e => final (m w s)
    end.
Proof. unfold mbind, M_bind. cbv zeta. by destruct (outcome (m w s)). Qed.








(** ** The aggregation of the high-funded projects *)

Lemma py_eqb_refl v : py_eqb v v = true.
Proof. destruct v; cbn; [done|apply Z.eqb_refl..|apply String.eqb_refl]. Qed.

Lemma insert_sorted_perm k ks : insert_sorted k ks ≡ₚ k :: ks.
Proof.
  induction ks as [|k' r IH]; [done|]. cbn.
  destruct (py_ltb k k'); [done|]. rewrite IH. apply Permutation_swap.
Qed.

Lemma sort_keys_perm ks : sort_keys ks ≡ₚ ks.
Proof.
  induction ks as [|k r IH]; [done|]. cbn.
  by rewrite insert_sorted_perm, IH.
Qed.

Lemma unique_subset vs v : v ∈ unique vs → v ∈ vs.
Proof.
  revert v. induction vs as [|x r IH]; intros v; [done|]. cbn.
  rewrite !elem_of_cons, list_elem_of_filter. intros [->|[_ H]]; auto.
Qed.

Lemma unique_covers vs v : v ∈ vs → ∃ k, k ∈ unique vs ∧ py_eqb k v = true.
Proof.
  induction vs as [|x r IH]; [by intros ?%elem_of_nil|].
  rewrite elem_of_cons. intros [->|Hv].
  - exists x. split; [left|apply py_eqb_refl].
  - destruct (IH Hv) as (k & Hk & Hkv).
    destruct (py_eqb x v) eqn:Exv.
    + exists x. split; [left|done].
    + destruct (py_eqb x k) eqn:Exk.
      * exists x. split; [left|].
        destruct x, k, v; cbn in *; try done.
        all: try (apply Z.eqb_eq in Exk, Hkv; apply Z.eqb_neq in Exv; congruence).
        apply String.eqb_eq in Exk, Hkv. apply String.eqb_neq in Exv. congruence.
      * exists k. split; [|done]. cbn. right.
        apply list_elem_of_filter. split; [|done]. by rewrite Exk.
Qed.

Lemma unique_NoDup vs : NoDup (unique vs).
Proof.
  induction vs as [|x r IH]; [constructor|]. cbn.
  apply NoDup_cons. split.
  - rewrite list_elem_of_filter, py_eqb_refl. by intros [? _].
  - by apply NoDup_filter.
Qed.

Lemma group_keys_elem i rs k :
  k ∈ group_keys i rs ↔
  k ∈ unique (filter (λ v, negb (is_null v)) ((λ r, cell r i) <$> rs)).
Proof. unfold group_keys. by rewrite sort_keys_perm. Qed.

Lemma group_keys_NoDup i rs : NoDup (group_keys i rs).
Proof. unfold group_keys. rewrite sort_keys_perm. apply unique_NoDup. Qed.

(** A group key is a title of the frame that is not null, and its group has
    a first row. *)
Lemma group_keys_group i rs k :
  k ∈ group_keys i rs →
  is_null k = false ∧ ∃ first rest, rows_where i k rs = first :: rest.
Proof.
  rewrite group_keys_elem. intros Hk%unique_subset.
  apply list_elem_of_filter in Hk as [Hnn Hk].
  apply list_elem_of_fmap in Hk as (r & -> & Hr).
  split; [by destruct (is_null (cell r i))|].
  destruct (rows_where i (cell r i) rs) as [|first rest] eqn:E; [|eauto].
  exfalso. unfold rows_where in E.
  refine (filter_nil_not_elem_of _ _ r E _ Hr). by rewrite py_eqb_refl.
Qed.

Lemma group_keys_covers i rs r :
  r ∈ rs → is_null (cell r i) = false →
  ∃ k, k ∈ group_keys i rs ∧ py_eqb k (cell r i) = true.
Proof.
  intros Hr Hnn.
  destruct (unique_covers
              (filter (λ v, negb (is_null v)) ((λ r, cell r i) <$> rs))
              (cell r i)) as (k & Hk & Hkr).
  { apply list_elem_of_filter. split; [by rewrite Hnn|].
    exact (list_elem_of_fmap_2 (λ r', cell r' i) rs r Hr). }
  exists k. by rewrite group_keys_elem.
Qed.

Lemma agg_first_head v vs : is_null v = false → agg_first (v :: vs) = v.
Proof.
  intros Hv. unfold agg_first. rewrite filter_cons_True by (by rewrite Hv). done.
Qed.

Lemma agg_count_all vs :
  Forall (λ v, is_null v = false) vs → agg_count vs = VInt (Z.of_nat (length vs)).
Proof.
  intros H. unfold agg_count. do 3 f_equal.
  induction H as [|v vs Hv _ IH]; [done|].
  rewrite filter_cons_True by (by rewrite Hv). by rewrite IH.
Qed.

(** C3, as stated, fails on the code: the count column is pandas' ['count']
    of the organism names, which leaves NULLs out, and the funding and
    status are pandas' ['first'], which skips NULLs.  A project reported with
    a NULL organism name gets OrganismCount 0 although its group has one
    row, and a group whose first row has a NULL funding amount gets the
    amount of a later row. *)
Lemma project_summary_first_row_counterexample :
  project_summary funded_without_organism =
    Ok (mkFrame ["ProjectTitle"; "TotalFunding"; "ProjectStatus"; "OrganismCount"]
          [[VStr "P1"; VInt 3; VStr "Active"; VInt 0]]) ∧
  length (rows_where 0 (VStr "P1") (rows funded_without_organism)) = 1%nat ∧
  project_summary funded_null_first =
    Ok (mkFrame ["ProjectTitle"; "TotalFunding"; "ProjectStatus"; "OrganismCount"]
          [[VStr "P1"; VInt 3; VStr "Active"; VInt 2]]) ∧
  head (rows_where 0 (VStr "P1") (rows funded_null_first)) =
    Some [VStr "P1"; VNone; VStr "Active"; VStr "OrgA"] ∧
  ¬ (∀ df summary it ifu,
       project_summary df = Ok summary →
       col_index "ProjectTitle" (columns df) = Some it →
       col_index "TotalFunding" (columns df) = Some ifu →
       ∀ row, row ∈ rows summary →
         ∃ first rest,
           rows_where it (cell row 0) (rows df) = first :: rest ∧
           cell row 1 = cell first ifu ∧
           cell row 3 = VInt (Z.of_nat (length (first :: rest)))).
Proof.
  split; [reflexivity|]. split; [reflexivity|].
  split; [reflexivity|]. split; [reflexivity|].
  intros H.
  destruct (H funded_without_organism _ 0%nat 1%nat eq_refl eq_refl eq_refl
              [VStr "P1"; VInt 3; VStr "Active"; VInt 0])
    as (first & rest & Hg & _ & Hc); [by left|].
  injection Hg as <- <-. discriminate Hc.
Qed.

(** C3, amended.  For every result table that has the four columns, the
    aggregation makes one summary row per distinct title that is not null;
    the row takes as TotalFunding and ProjectStatus the first value of the
    group that is not null, which is the value of the first row of the group
    when that one is not null, and as OrganismCount the number of rows of
    the group whose OrganismName is not null, which is the number of rows of
    the group when none is null.  On the rows (P1,3,Active,OrgA),
    (P1,3,Active,OrgB), (P2,5,Closed,OrgC) it gives two groups, with
    OrganismCount 2 and 1, each with the funding and status first seen. *)
Theorem project_summary_groups df it ifu ist ion :
  col_index "ProjectTitle" (columns df) = Some it →
  col_index "TotalFunding" (columns df) = Some ifu →
  col_index "ProjectStatus" (columns df) = Some ist →
  col_index "OrganismName" (columns df) = Some ion →
  (∃ summary,
    project_summary df = Ok summary ∧
    columns summary =
      ["ProjectTitle"; "TotalFunding"; "ProjectStatus"; "OrganismCount"] ∧
    NoDup ((λ row, cell row 0) <$> rows summary) ∧
    (∀ r, r ∈ rows df → is_null (cell r it) = false →
       ∃ row, row ∈ rows summary ∧ py_eqb (cell row 0) (cell r it) = true) ∧
    (∀ row, row ∈ rows summary →
       ∃ first rest,
         let g := first :: rest in
         rows_where it (cell row 0) (rows df) = g ∧
         is_null (cell row 0) = false ∧
         length row = 4%nat ∧
         cell row 1 = agg_first ((λ r, cell r ifu) <$> g) ∧
         cell row 2 = agg_first ((λ r, cell r ist) <$> g) ∧
         cell row 3 = agg_count ((λ r, cell r ion) <$> g) ∧
         (is_null (cell first ifu) = false → cell row 1 = cell first ifu) ∧
         (is_null (cell first ist) = false → cell row 2 = cell first ist) ∧
         (Forall (λ r, is_null (cell r ion) = false) g →
          cell row 3 = VInt (Z.of_nat (length g))))) ∧
  project_summary funded_example =
    Ok (mkFrame ["ProjectTitle"; "TotalFunding"; "ProjectStatus"; "OrganismCount"]
          [[VStr "P1"; VInt 3; VStr "Active"; VInt 2];
           [VStr "P2"; VInt 5; VStr "Closed"; VInt 1]]).
Proof.
  intros Hit Hifu Hist Hion. split; [|reflexivity].
  unfold project_summary, need_column. rewrite Hit, Hifu, Hist, Hion.
  eexists. split; [reflexivity|]. cbn [columns rows].
  split; [reflexivity|]. split; [|split].
  - rewrite <- list_fmap_compose.
    rewrite (list_fmap_ext _ id (group_keys it (rows df))) by done.
    rewrite list_fmap_id. apply group_keys_NoDup.
  - intros r Hr Hnn.
    destruct (group_keys_covers it (rows df) r Hr Hnn) as (k & Hk & Hkr).
    eexists. split; [exact (list_elem_of_fmap_2 _ _ k Hk)|exact Hkr].
  - intros row Hrow.
    apply list_elem_of_fmap in Hrow as (k & -> & Hk).
    destruct (group_keys_group _ _ _ Hk) as (Hnn & first & rest & Hg).
    exists first, rest. cbv zeta. cbn [cell nth length]. rewrite Hg.
    repeat split; try done.
    + intros Hf. by apply agg_first_head.
    + intros Hf. by apply agg_first_head.
    + intros Hall. rewrite agg_count_all; [by rewrite length_fmap|].
      by apply Forall_fmap.
Qed.

Lemma project_summary_groups_witness :
  col_index "ProjectTitle" (columns funded_example) = Some 0%nat ∧
  col_index "TotalFunding" (columns funded_example) = Some 1%nat ∧
  col_index "ProjectStatus" (columns funded_example) = Some 2%nat ∧
  col_index "OrganismName" (columns funded_example) = Some 3%nat ∧
  ∃ summary,
    project_summary funded_example = Ok summary ∧
    NoDup ((λ row, cell row 0) <$> rows summary).
Proof.
  repeat (split; [reflexivity|]).
  destruct (proj1 (project_summary_groups funded_example 0 1 2 3
                     eq_refl eq_refl eq_refl eq_refl))
    as (summary & Hs & _ & Hnd & _).
  exists summary. by split.
Defined.

(** ** The session flag and the gate *)

Lemma bind_run {A B} (m : M A) (f : A → M B) w s a es s' :
  m w s = mkRes (Ok a) es s' →
  (m ≫= f) w s =
    mkRes (outcome (f a w s')) (es ++ events (f a w s')) (final (f a w s')).
Proof. intros H. unfold mbind, M_bind. cbv zeta. by rewrite H. Qed.

Lemma connect_button_run ui w s :
  connect_button ui (host (main_args ui)) (user (main_args ui))
    (password (main_args ui)) (database (main_args ui)) w s =
  mkRes (Ok tt) (button_events ui w s)
    (if st_button ui "Connect"
     then mkSt (S (attempts s))
            (<["connected" :=
                 bool_decide (accept w (attempts s) (main_args ui) = None)]>
               (session_state s))
     else s).
Proof.
  unfold connect_button, button_events.
  destruct (st_button ui "Connect"); [|reflexivity].
  change (mkArgs (host (main_args ui)) 3306 (user (main_args ui))
            (password (main_args ui)) (database (main_args ui)))
    with (main_args ui).
  destruct (accept w (attempts s) (main_args ui)) as [err|] eqn:E.
  - rewrite (bind_run _ _ _ _ None _ _
               (connect_to_db_refused _ _ _ _ _ _ err E)).
    by rewrite bool_decide_false.
  - rewrite (bind_run _ _ _ _ (Some tt) _ _
               (connect_to_db_accepted _ _ _ _ _ _ E)).
    by rewrite bool_decide_true.
Qed.

Lemma main_run ui w s :
  main ui w s =
    let a := main_args ui in
    let r := (if flag_after ui w s
              then connected_page ui (host a) (user a) (password a) (database a)
              else emit (StWrite (Text placeholder))) w (gate_state ui w s) in
    mkRes (outcome r)
          (StTitle "Biological Research Database" :: button_events ui w s ++
           events r)
          (final r).
Proof.
  unfold main. cbv zeta.
  change (connect_button ui _ _ _ "ProjectDB")
    with (connect_button ui (host (main_args ui)) (user (main_args ui))
            (password (main_args ui)) (database (main_args ui))).
  change (connected_page ui _ _ _ "ProjectDB")
    with (connected_page ui (host (main_args ui)) (user (main_args ui))
            (password (main_args ui)) (database (main_args ui))).
  generalize (connected_page ui (host (main_args ui)) (user (main_args ui))
                (password (main_args ui)) (database (main_args ui))).
  intros page.
  rewrite (bind_run _ _ w s tt [StTitle "Biological Research Database"] s eq_refl).
  rewrite (bind_run _ _ w s
             (bool_decide (is_Some (session_state s !! "connected"))) [] s eq_refl).
  cbn [app].
  assert (Hgate : ∀ s1,
    attempts s1 = attempts s →
    session_state s1 = <["connected" := flag_before s]> (session_state s) →
    (connect_button ui (host (main_args ui)) (user (main_args ui))
       (password (main_args ui)) (database (main_args ui));;
     connected ← session_get "connected";
     if (connected : bool) then page else emit (StWrite (Text placeholder)))
      w s1 =
    (let r := (if flag_after ui w s then page
               else emit (StWrite (Text placeholder))) w (gate_state ui w s) in
     mkRes (outcome r) (button_events ui w s ++ events r) (final r))).
  { intros s1 Hn Hss.
    rewrite (bind_run _ _ _ _ _ _ _ (connect_button_run ui w s1)).
    unfold button_events, gate_state, flag_after. rewrite Hn.
    destruct s1 as [n1 ss1]. cbn [attempts session_state] in *. subst n1 ss1.
    destruct (st_button ui "Connect").
    - rewrite (bind_run _ _ _ _
                 (bool_decide (accept w (attempts s) (main_args ui) = None)) []
                 (mkSt (S (attempts s))
                    (<["connected" := bool_decide
                         (accept w (attempts s) (main_args ui) = None)]>
                       (<["connected" := flag_before s]> (session_state s)))))
        by (unfold session_get; cbn [session_state];
            by rewrite lookup_insert_eq).
      by rewrite insert_insert_eq.
    - rewrite (bind_run _ _ _ _ (flag_before s) []
                 (mkSt (attempts s)
                    (<["connected" := flag_before s]> (session_state s))))
        by (unfold session_get; cbn [session_state];
            by rewrite lookup_insert_eq).
      reflexivity. }
  unfold flag_before in Hgate.
  destruct (session_state s !! "connected") as [b|] eqn:Ess.
  - rewrite bool_decide_true by done.
    rewrite (bind_run _ _ w s tt [] s eq_refl). cbn [app].
    rewrite (Hgate s eq_refl); [by destruct (_ w (gate_state ui w s))|].
    cbn [default from_option id]. by rewrite insert_id.
  - rewrite bool_decide_false by (by intros [? ?]).
    rewrite (bind_run _ _ w s tt []
               (mkSt (attempts s) (<["connected" := false]> (session_state s)))
               eq_refl).
    cbn [app].
    rewrite (Hgate (mkSt (attempts s)
                      (<["connected" := false]> (session_state s)))
               eq_refl eq_refl).
    by destruct (_ w (gate_state ui w s)).
Qed.

Section Confined.
Variable a : ConnectArgs.

Lemma confined_ret {A} (x : A) : confined a (mret x).
Proof. intros w s. by split. Qed.

Lemma confined_lift {A} (o : Outcome A) : confined a (lift o).
Proof. intros w s. by split. Qed.

Lemma confined_emit e : connects_with a e → confined a (emit e).
Proof. intros He w s. split; [by repeat constructor|done]. Qed.

Lemma confined_bind {A B} (m : M A) (f : A → M B) :
  confined a m → (∀ x, confined a (f x)) → confined a (m ≫= f).
Proof.
  intros Hm Hf w s. destruct (Hm w s) as [Hev Hss].
  rewrite events_bind, final_bind.
  destruct (outcome (m w s)) as [x|e].
  - destruct (Hf x w (final (m w s))) as [Hev' Hss'].
    split; [by apply Forall_app|congruence].
  - split; [by rewrite app_nil_r|done].
Qed.

Lemma confined_for_each {A} (xs : list A) (body : A → M unit) :
  (∀ x, confined a (body x)) → confined a (for_each xs body).
Proof.
  intros Hb. induction xs as [|x r IH]; [apply confined_ret|].
  cbn [for_each]. apply confined_bind; [apply Hb|]. by intros _.
Qed.
End Confined.

Lemma confined_execute_query query hostname user password database params :
  confined (mkArgs hostname 3306 user password database)
    (execute_query query hostname user password database params).
Proof.
  intros w s. rewrite execute_query_run. cbv zeta.
  destruct (accept _ _ _); [by repeat constructor|].
  destruct (answer _ _ _ _); by repeat constructor.
Qed.

Create HintDb confined.
#[local] Hint Resolve confined_execute_query : confined.

(** Breaks a computation of the script into its calls; the calls already
    known to be confined are taken from the hint database. *)
Ltac confine :=
  repeat first
    [ solve [auto 1 with confined nocore]
    | apply confined_ret
    | apply confined_lift
    | apply confined_emit; exact I
    | apply confined_for_each; intros ?
    | apply confined_bind; [|intros ?]
    | match goal with
      | |- confined _ (if ?b then _ else _) => destruct b
      | |- confined _ (match ?x with _ => _ end) => destruct x
      end ].

Lemma confined_search_database search_term hostname user password database :
  confined (mkArgs hostname 3306 user password database)
    (search_database search_term hostname user password database).
Proof. unfold search_database. confine. Qed.
#[local] Hint Resolve confined_search_database : confined.

Lemma confined_organism_profile organism_name hostname user password database :
  confined (mkArgs hostname 3306 user password database)
    (organism_profile organism_name hostname user password database).
Proof. unfold organism_profile. confine. Qed.
#[local] Hint Resolve confined_organism_profile : confined.

Lemma confined_student_view ui hostname user password database :
  confined (mkArgs hostname 3306 user password database)
    (student_view ui hostname user password database).
Proof. unfold student_view. confine. Qed.
#[local] Hint Resolve confined_student_view : confined.

Lemma confined_researcher_view ui hostname user password database :
  confined (mkArgs hostname 3306 user password database)
    (researcher_view ui hostname user password database).
Proof. unfold researcher_view, show_table. confine. Qed.
#[local] Hint Resolve confined_researcher_view : confined.

Lemma confined_administrator_view ui hostname user password database :
  confined (mkArgs hostname 3306 user password database)
    (administrator_view ui hostname user password database).
Proof. unfold administrator_view, show_table, project_details. confine. Qed.
#[local] Hint Resolve confined_administrator_view : confined.

Lemma confined_connected_page ui hostname user password database :
  confined (mkArgs hostname 3306 user password database)
    (connected_page ui hostname user password database).
Proof.
  unfold connected_page. confine.
Qed.

Lemma connections_confined a es :
  Forall (connects_with a) es → Forall (λ a', a' = a) (connections es).
Proof.
  induction 1 as [|e es He _ IH]; [constructor|].
  destruct e; cbn in *; auto.
Qed.


Lemma executed_button_events ui w s : executed (button_events ui w s) = [].
Proof.
  unfold button_events. destruct (st_button ui "Connect"); [|done].
  by destruct (accept _ _ _).
Qed.




(** C9, as stated, fails on the code: there is no text input for the
    database.  With the same text typed into every text input, the
    connection attempts are still made with the database name ProjectDB,
    which no text input returned. *)
Lemma connect_database_input_counterexample :
  (∀ label default, st_text_input typist label default = "labdb") ∧
  connections (events (main typist offline initial)) =
    [mkArgs "labdb" 3306 "labdb" "labdb" "ProjectDB"] ∧
  ¬ (∀ ui w s a,
       a ∈ connections (events (main ui w s)) →
       ∃ label default, database a = st_text_input ui label default).
Proof.
  split; [reflexivity|]. split; [reflexivity|].
  intros H.
  destruct (H typist offline initial
              (mkArgs "labdb" 3306 "labdb" "labdb" "ProjectDB"))
    as (label & default & Hdb); [by left|].
  discriminate Hdb.
Qed.

(** C9, amended.  The hostname, the user and the password are supplied by
    the user through text inputs, each with a default value, and the
    database is the fixed name ProjectDB; every connection attempt of a
    rerun, the one of the Connect button and the one of each query call, is
    made with these four values and port 3306. *)
Theorem connection_parameters ui w s :
  Forall (λ a,
    host a = st_text_input ui "Database Hostname" default_hostname ∧
    port a = 3306 ∧
    user a = st_text_input ui "Database User" "root" ∧
    password a = st_text_input ui "Database Password" "password" ∧
    database a = "ProjectDB")
    (connections (events (main ui w s))).
Proof.
  apply (Forall_impl (λ a, a = main_args ui)); [|by intros a ->].
  apply connections_confined.
  rewrite main_run. cbv zeta. cbn [events].
  constructor; [exact I|]. apply Forall_app. split.
  - unfold button_events. destruct (st_button ui "Connect"); [|constructor].
    destruct (accept _ _ _); by repeat constructor.
  - destruct (flag_after ui w s); [|by repeat constructor].
    exact (proj1 (confined_connected_page ui _ _ _ _ w (gate_state ui w s))).
Qed.

(** ** The connector and the executor on their own *)


(** X2.  When the connection is accepted and the store answers, [execute_query]
    returns the table made of the answer's column names and of its rows in
    the order fetched, having made one connection attempt and closed the
    cursor and then the connection as its last two calls. *)
Theorem execute_query_returns_answer
    query hostname user password database params w s cols rs :
  accept w (attempts s) (mkArgs hostname 3306 user password database) = None →
  answer w (attempts s) query (bound params) = inr (cols, rs) →
  let a := mkArgs hostname 3306 user password database in
  let r := execute_query query hostname user password database params w s in
  outcome r = Ok (mkFrame cols rs) ∧
  events r = [MySQLConnect a; CursorExecute query (bound params);
              CursorFetchall; CursorClose; ConnClose] ∧
  connections (events r) = [a] ∧
  cursor_closes (events r) = 1%nat ∧ closes (events r) = 1%nat ∧
  session_state (final r) = session_state s.
Proof.
  intros Hacc Hans. cbv zeta.
  by rewrite (execute_query_answered _ _ _ _ _ _ _ _ cols rs Hacc Hans).
Qed.

Lemma execute_query_returns_answer_witness :
  accept lab 0 (mkArgs "db.example" 3306 "root" "password" "ProjectDB") = None ∧
  answer lab 0 conditions_query (bound (Some [VNpInt 7])) =
    inr (["OrganismID"; "OptimalTemp"], [[VInt 7; VInt 106]]) ∧
  outcome (execute_query conditions_query "db.example" "root" "password"
             "ProjectDB" (Some [VNpInt 7]) lab initial) =
    Ok (mkFrame ["OrganismID"; "OptimalTemp"] [[VInt 7; VInt 106]]).
Proof.
  split; [reflexivity|]. split; [reflexivity|].
  exact (proj1 (execute_query_returns_answer conditions_query "db.example"
                  "root" "password" "ProjectDB" (Some [VNpInt 7]) lab initial
                  _ _ eq_refl eq_refl)).
Defined.

(** X3.  When the connection is accepted and the store rejects the statement,
    [execute_query] raises the store's error and closes neither the cursor
    nor the connection it opened. *)
Theorem execute_query_error_leaves_connection_open
    query hostname user password database params w s msg :
  accept w (attempts s) (mkArgs hostname 3306 user password database) = None →
  answer w (attempts s) query (bound params) = inl msg →
  let a := mkArgs hostname 3306 user password database in
  let r := execute_query query hostname user password database params w s in
  outcome r = Raise (MySQLError msg) ∧
  connections (events r) = [a] ∧
  executed (events r) = [(query, bound params)] ∧
  cursor_closes (events r) = 0%nat ∧ closes (events r) = 0%nat.
Proof.
  intros Hacc Hans. cbv zeta.
  by rewrite (execute_query_failed _ _ _ _ _ _ _ _ msg Hacc Hans).
Qed.

Lemma execute_query_error_leaves_connection_open_witness :
  accept broken_schema 0
    (mkArgs "db.example" 3306 "root" "password" "ProjectDB") = None ∧
  answer broken_schema 0 "SELECT Name FROM Organism" (bound None) =
    inl "Table 'ProjectDB.Organism' doesn't exist" ∧
  closes (events (execute_query "SELECT Name FROM Organism" "db.example" "root"
                    "password" "ProjectDB" None broken_schema initial)) = 0%nat.
Proof.
  split; [reflexivity|]. split; [reflexivity|].
  apply (execute_query_error_leaves_connection_open "SELECT Name FROM Organism"
           "db.example" "root" "password" "ProjectDB" None broken_schema initial
           "Table 'ProjectDB.Organism' doesn't exist" eq_refl eq_refl).
Defined.

(** ** Properties of every trace of a rerun *)

Lemma holds_ret w P `{!Composable P} {A} (x : A) : holds w P (mret x).
Proof. intros s. apply composable_nil. Qed.

Lemma holds_lift w P `{!Composable P} {A} (o : Outcome A) : holds w P (lift o).
Proof. intros s. apply composable_nil. Qed.

Lemma holds_emit w (P : list Event → Prop) e : P [e] → holds w P (emit e).
Proof. by intros He s. Qed.

Lemma holds_bind w P `{!Composable P} {A B} (m : M A) (f : A → M B) :
  holds w P m → (∀ x, holds w P (f x)) → holds w P (m ≫= f).
Proof.
  intros Hm Hf s. rewrite events_bind. apply composable_app; [apply Hm|].
  destruct (outcome (m w s)); [apply Hf|apply composable_nil].
Qed.

Lemma holds_for_each w P `{!Composable P} {A} (xs : list A) (body : A → M unit) :
  (∀ x, holds w P (body x)) → holds w P (for_each xs body).
Proof.
  intros Hb. induction xs as [|x r IH]; [by apply holds_ret|].
  cbn [for_each]. apply holds_bind; [done|apply Hb|]. by intros _.
Qed.

Lemma filtered_query_in_list domain_filter :
  filtered_query domain_filter = in_list_query (length domain_filter).
Proof. reflexivity. Qed.

Section Walk.
Context (w : World) (P : list Event → Prop) `{!Composable P}.
Context (allowed : string → Prop).
Hypothesis P_rendering : ∀ e, rendering e → P [e].
Hypothesis P_query : ∀ q hostname user password database params,
  allowed q → holds w P (execute_query q hostname user password database params).
Hypothesis allowed_page : ∀ q, q ∈ page_statements → allowed q.
Hypothesis allowed_filter : ∀ n, allowed (in_list_query n).

(** Breaks a page into its calls: the queries are looked up among the
    allowed statements, everything else is something shown. *)
Ltac walk_with known :=
  repeat first
    [ known
    | assumption
    | apply holds_ret; assumption
    | apply holds_lift; assumption
    | apply holds_emit, P_rendering; exact I
    | apply P_query;
      first [ assumption
            | rewrite filtered_query_in_list; apply allowed_filter
            | apply allowed_page;
              solve [repeat first [apply list_elem_of_here
                                  | apply list_elem_of_further]] ]
    | apply holds_for_each; [assumption|intros ?]
    | apply holds_bind; [assumption| |intros ?]
    | match goal with
      | |- holds _ _ (if ?b then _ else _) => destruct b
      | |- holds _ _ (match ?x with _ => _ end) => destruct x
      end ].

Ltac walk := walk_with fail.

Lemma holds_organism_profile organism_name hostname user password database :
  holds w P (organism_profile organism_name hostname user password database).
Proof. unfold organism_profile. walk. Qed.

Lemma holds_student_view ui hostname user password database :
  holds w P (student_view ui hostname user password database).
Proof. unfold student_view. cbv zeta. walk. Qed.

Lemma holds_researcher_view ui hostname user password database :
  holds w P (researcher_view ui hostname user password database).
Proof. unfold researcher_view, show_table. cbv zeta. walk. Qed.

Lemma holds_administrator_view ui hostname user password database :
  holds w P (administrator_view ui hostname user password database).
Proof.
  unfold administrator_view, show_table, project_details. cbv zeta. walk.
Qed.

Lemma holds_connected_page ui hostname user password database :
  (st_text_input ui "Search for organisms or projects:" "" ≠ "" →
   allowed search_query) →
  holds w P (connected_page ui hostname user password database).
Proof.
  intros Hsearch. unfold connected_page. cbv zeta.
  apply holds_bind; [done| |intros _].
  - case_bool_decide as Hterm; [by apply holds_ret|].
    pose proof (Hsearch Hterm). unfold search_database. walk.
  - walk_with ltac:(first [ apply holds_student_view
                          | apply holds_researcher_view
                          | apply holds_administrator_view
                          | apply holds_organism_profile ]).
Qed.

Lemma holds_main ui s :
  (st_text_input ui "Search for organisms or projects:" "" ≠ "" →
   allowed search_query) →
  P (button_events ui w s) →
  P (events (main ui w s)).
Proof.
  intros Hsearch Hbutton. rewrite main_run. cbv zeta. cbn [events].
  apply (composable_app [_]); [by apply P_rendering|].
  apply composable_app; [done|].
  destruct (flag_after ui w s).
  - by apply holds_connected_page.
  - by apply P_rendering.
Qed.
End Walk.

Lemma closes_app es es' : closes (es ++ es') = (closes es + closes es')%nat.
Proof. unfold closes. by rewrite omap_app, length_app. Qed.

Lemma connections_app es es' :
  connections (es ++ es') = connections es ++ connections es'.
Proof. apply omap_app. Qed.

#[local] Instance runs_only_composable statements :
  Composable (runs_only statements).
Proof.
  split; [constructor|]. intros es es' H H'. unfold runs_only.
  rewrite executed_app. by apply Forall_app.
Qed.

#[local] Instance closes_within_composable : Composable closes_within.
Proof.
  unfold closes_within. split; [cbn; lia|]. intros es es' H H'.
  rewrite closes_app, connections_app, length_app. lia.
Qed.

#[local] Instance balanced_composable : Composable balanced.
Proof.
  unfold balanced. split; [reflexivity|]. intros es es' H H'.
  rewrite closes_app, connections_app, length_app. lia.
Qed.

Lemma rendering_executed e : rendering e → executed [e] = [].
Proof. by destruct e. Qed.

Lemma rendering_balanced e : rendering e → balanced [e].
Proof. by destruct e. Qed.

Lemma runs_only_execute_query statements w q hostname user password database ps :
  fixed_text statements q →
  holds w (runs_only statements)
    (execute_query q hostname user password database ps).
Proof.
  intros Hq s. unfold runs_only. rewrite executed_execute_query.
  destruct (accept _ _ _); [constructor|]. by constructor.
Qed.

Lemma page_statements_select :
  Forall (λ q, is_select q = true) (search_query :: page_statements).
Proof. by repeat constructor. Qed.

Lemma in_list_query_select n : is_select (in_list_query n) = true.
Proof. reflexivity. Qed.

Lemma in_list_query_not_search n : in_list_query n ≠ search_query.
Proof. intros H. discriminate H. Qed.

Lemma runs_only_main statements ui w s :
  (∀ q, q ∈ page_statements → q ∈ statements) →
  (st_text_input ui "Search for organisms or projects:" "" ≠ "" →
   search_query ∈ statements) →
  runs_only statements (events (main ui w s)).
Proof.
  intros Hpage Hsearch.
  apply (holds_main w _ (fixed_text statements)).
  - intros e He. unfold runs_only. by rewrite rendering_executed.
  - intros. by apply runs_only_execute_query.
  - intros q Hq. left. by apply Hpage.
  - intros n. right. by exists n.
  - intros Hterm. left. by apply Hsearch.
  - unfold runs_only. by rewrite executed_button_events.
Qed.

(** X4.  In every rerun, whatever the user typed or picked and whatever the
    store does, the text of each statement handed to a cursor is one of the
    statements written in the program, or the base statement with an IN
    list made of placeholders only; all of them are SELECTs.  What the user
    enters reaches the store in bound parameters, never in the statement. *)
Theorem main_statements_fixed ui w s :
  Forall (λ x,
    (x.1 ∈ search_query :: page_statements ∨ ∃ n, x.1 = in_list_query n) ∧
    is_select x.1 = true)
    (executed (events (main ui w s))).
Proof.
  eapply Forall_impl;
    [apply (runs_only_main (search_query :: page_statements) ui w s)|].
  - intros q Hq. by right.
  - intros _. left.
  - intros [q ps] Hq. split; [exact Hq|]. cbn [fst] in *.
    destruct Hq as [Hq|[n ->]]; [|apply in_list_query_select].
    pose proof page_statements_select as Hall.
    rewrite Forall_forall in Hall. by apply Hall.
Qed.

(** X5.  With the search box left empty a rerun never runs the search statement,
    whatever page is shown. *)
Theorem main_empty_search ui w s :
  st_text_input ui "Search for organisms or projects:" "" = "" →
  Forall (λ x, x.1 ≠ search_query) (executed (events (main ui w s))).
Proof.
  intros Hterm.
  eapply Forall_impl; [apply (runs_only_main page_statements ui w s)|].
  - done.
  - by intros [].
  - intros [q ps] [Hq|[n ->]]; cbn [fst] in *; [|apply in_list_query_not_search].
    intros ->. revert Hq. unfold page_statements. cbn.
    rewrite !elem_of_cons, elem_of_nil. intros H.
    repeat (destruct H as [H|H]; [discriminate H|]). done.
Qed.

Lemma main_empty_search_witness :
  st_text_input (visitor 1 0 None) "Search for organisms or projects:" "" = "" ∧
  Forall (λ x, x.1 ≠ search_query)
    (executed (events (main (visitor 1 0 None) lab connected))).
Proof.
  split; [reflexivity|].
  apply (main_empty_search (visitor 1 0 None) lab connected). reflexivity.
Defined.

Lemma closes_within_execute_query w q hostname user password database ps :
  holds w closes_within (execute_query q hostname user password database ps).
Proof.
  intros s. rewrite execute_query_run. cbv zeta. unfold closes_within.
  destruct (accept _ _ _); [cbn; lia|].
  destruct (answer _ _ _ _); cbn; lia.
Qed.

Lemma balanced_execute_query w q hostname user password database ps :
  healthy w →
  holds w balanced (execute_query q hostname user password database ps).
Proof.
  intros [Hacc Hans] s. rewrite execute_query_run. cbv zeta.
  rewrite Hacc. destruct (Hans (attempts s) q (bound ps)) as [t ->].
  reflexivity.
Qed.

(** X7.  A rerun never closes more connections than it attempted, whatever the
    store does and however the rerun ends. *)
Theorem main_closes_within ui w s :
  (closes (events (main ui w s)) ≤ length (connections (events (main ui w s))))%nat.
Proof.
  apply (holds_main w closes_within (λ _, True)); try done.
  - intros e He. unfold closes_within. destruct e; cbn; try lia; done.
  - intros. apply closes_within_execute_query.
  - unfold button_events, closes_within.
    destruct (st_button ui "Connect"); [|cbn; lia].
    destruct (accept _ _ _); cbn; lia.
Qed.

(** X8.  Against a store that accepts every connection and answers every
    statement, a rerun closes every connection it opened, also when it ends
    in an exception raised by the page. *)
Theorem main_closes_every_connection ui w s :
  healthy w →
  closes (events (main ui w s)) = length (connections (events (main ui w s))).
Proof.
  intros Hw.
  apply (holds_main w balanced (λ _, True)); try done.
  - apply rendering_balanced.
  - intros. by apply balanced_execute_query.
  - unfold button_events, balanced.
    destruct (st_button ui "Connect"); [|reflexivity].
    destruct Hw as [Hacc _]. by rewrite Hacc.
Qed.

Lemma lab_healthy : healthy lab.
Proof.
  split; [done|]. intros n q ps. unfold lab. cbn [answer].
  repeat case_bool_decide; eauto.
Qed.

Lemma main_closes_every_connection_witness :
  healthy lab ∧
  closes (events (main (visitor 3 0 (Some "fum")) lab connected)) = 5%nat ∧
  length (connections (events (main (visitor 3 0 (Some "fum")) lab connected))) =
    5%nat.
Proof.
  split; [exact lab_healthy|].
  split; [|reflexivity].
  rewrite (main_closes_every_connection (visitor 3 0 (Some "fum")) lab connected
             lab_healthy).
  reflexivity.
Defined.


(** X6.  With a term in the search box, a connected rerun runs the search before
    anything else of the page and, unless the store raised, writes its
    result to the sidebar next. *)
Theorem connected_page_searches_first ui hostname user password database w s :
  st_text_input ui "Search for organisms or projects:" "" ≠ "" →
  let term := st_text_input ui "Search for organisms or projects:" "" in
  let search := search_database term hostname user password database w s in
  ∃ rest,
    events (connected_page ui hostname user password database w s) =
      events search ++
      match outcome search with
      | Ok search_results => SidebarWrite (Frame search_results) :: rest
      | Raise _ => []
      end.
Proof.
  intros Hterm. cbv zeta. unfold connected_page. cbv zeta.
  rewrite (bool_decide_eq_false_2 _ Hterm).
  rewrite events_bind, events_bind, outcome_bind.
  destruct (outcome (search_database _ _ _ _ _ w s)) as [df|e].
  - cbn [emit outcome events final]. eexists. rewrite <- app_assoc. reflexivity.
  - exists []. by rewrite app_nil_r.
Qed.

Lemma connected_page_searches_first_witness :
  st_text_input (visitor 1 0 (Some "fum"))
    "Search for organisms or projects:" "" ≠ "" ∧
  ∃ rest,
    events (connected_page (visitor 1 0 (Some "fum")) "db.example" "root"
              "password" "ProjectDB" lab connected) =
      query_events (mkArgs "db.example" 3306 "root" "password" "ProjectDB")
        search_query (Some [VStr "%fum%"; VStr "%fum%"]) ++
      SidebarWrite (Frame (mkFrame ["Name"; "Domain"]
                             [[VStr "Pyrolobus fumarii"; VStr "Archaea"]])) ::
      rest.
Proof.
  split; [discriminate|].
  exact (connected_page_searches_first (visitor 1 0 (Some "fum")) "db.example"
           "root" "password" "ProjectDB" lab connected ltac:(discriminate)).
Defined.

(** ** The pages, entry by entry *)


(** Settles the label comparisons of a view once the selection is known. *)
Ltac dispatch :=
  repeat first [ rewrite bool_decide_eq_true_2 by done
               | rewrite bool_decide_eq_false_2 by done ];
  cbv beta iota.





(** ** A connected session that loses the server *)

Lemma student_selection ui :
  st_selectbox ui "Select a query:" student_queries =
    Some "List organisms with their taxonomic information and ecosystem" ∨
  st_selectbox ui "Select a query:" student_queries =
    Some "Find average optimal temperature for organisms in each ecosystem".
Proof.
  unfold st_selectbox.
  destruct (picked ui "Select a query:") as [|[|n]]; cbn; auto.
Qed.

(** X12.  When the connection is refused, the student view shows the header, the
    error and an empty table and then raises, whichever entry is selected:
    [KeyError] for the missing Domain column in the first entry, the
    charting library's [ValueError] in the second.  No chart is drawn. *)
Theorem student_view_refused ui hostname user password database w s err :
  accept w (attempts s) (mkArgs hostname 3306 user password database) =
    Some err →
  let r := student_view ui hostname user password database w s in
  outcome r =
    (if bool_decide
          (st_selectbox ui "Select a query:" student_queries =
           Some "List organisms with their taxonomic information and ecosystem")
     then Raise (KeyError "Domain") else Raise ValueError) ∧
  events r = [StHeader "Student View";
              MySQLConnect (mkArgs hostname 3306 user password database);
              StError ("Error: " +:+ err); StDataframe empty_frame].
Proof.
  intros Herr. cbv zeta. unfold student_view. cbv zeta.
  destruct (student_selection ui) as [Hsel|Hsel]; rewrite Hsel; dispatch.
  - destruct (st_multiselect ui "Filter by Domain:" domain_options);
      repeat (rewrite ?outcome_bind, ?events_bind, ?final_bind;
              rewrite ?(execute_query_refused _ _ _ _ _ _ _ _ err Herr);
              cbn [emit lift outcome events final app]);
      done.
  - repeat (rewrite ?outcome_bind, ?events_bind, ?final_bind;
            rewrite ?(execute_query_refused _ _ _ _ _ _ _ _ err Herr);
            cbn [emit lift outcome events final app]).
    done.
Qed.

Lemma student_view_refused_witness :
  accept offline 1 (mkArgs "db.example" 3306 "root" "password" "ProjectDB") =
    Some "Can't connect to MySQL server" ∧
  outcome (student_view (visitor 0 1 None) "db.example" "root" "password"
             "ProjectDB" offline connected) = Raise ValueError.
Proof.
  split; [reflexivity|].
  exact (proj1 (student_view_refused (visitor 0 1 None) "db.example" "root"
                  "password" "ProjectDB" offline connected _ eq_refl)).
Defined.

(** X13.  When the connection is refused, the high-funded projects entry shows
    the header, the error and an empty table, and the grouping then raises
    [KeyError] for the missing ProjectTitle column: no chart and no detail
    block are drawn. *)
Theorem administrator_view_high_funded_refused
    ui hostname user password database w s err :
  st_selectbox ui "Select a query:" administrator_queries =
    Some "High-funded projects and associated organisms" →
  accept w (attempts s) (mkArgs hostname 3306 user password database) =
    Some err →
  let r := administrator_view ui hostname user password database w s in
  outcome r = Raise (KeyError "ProjectTitle") ∧
  events r = [StHeader "Administrator View";
              MySQLConnect (mkArgs hostname 3306 user password database);
              StError ("Error: " +:+ err); StDataframe empty_frame].
Proof.
  intros Hsel Herr. cbv zeta. unfold administrator_view, show_table. cbv zeta.
  rewrite Hsel. dispatch.
  repeat (rewrite ?outcome_bind, ?events_bind, ?final_bind;
          rewrite ?(execute_query_refused _ _ _ _ _ _ _ _ err Herr);
          cbn [emit lift outcome events final app]).
  done.
Qed.

Lemma administrator_view_high_funded_refused_witness :
  st_selectbox (visitor 2 4 None) "Select a query:" administrator_queries =
    Some "High-funded projects and associated organisms" ∧
  accept offline 1 (mkArgs "db.example" 3306 "root" "password" "ProjectDB") =
    Some "Can't connect to MySQL server" ∧
  outcome (administrator_view (visitor 2 4 None) "db.example" "root" "password"
             "ProjectDB" offline connected) = Raise (KeyError "ProjectTitle").
Proof.
  split; [reflexivity|]. split; [reflexivity|].
  exact (proj1 (administrator_view_high_funded_refused (visitor 2 4 None)
                  "db.example" "root" "password" "ProjectDB" offline connected
                  _ eq_refl eq_refl)).
Defined.

(** X14.  When the server cannot be reached, the Organism Profiles page of a
    connected session raises [KeyError] for the missing Name column of the
    organism list, before any organism can be selected: no profile query is
    attempted and nothing of a profile is written. *)
Theorem organism_profiles_page_unreachable
    ui hostname user password database w s :
  unreachable w (mkArgs hostname 3306 user password database) →
  st_selectbox ui "Select a page:" pages = Some "Organism Profiles" →
  let r := connected_page ui hostname user password database w s in
  outcome r = Raise (KeyError "Name") ∧
  executed (events r) = [] ∧
  Forall (λ e, match e with StSubheader _ | StWrite _ => False | _ => True end)
         (events r).
Proof.
  intros Hw Hsel. cbv zeta. unfold connected_page, search_database. cbv zeta.
  rewrite Hsel. dispatch.
  destruct (Hw (attempts s)) as [err Herr].
  destruct (Hw (S (attempts s))) as [err' Herr'].
  case_bool_decide.
  - repeat (rewrite ?outcome_bind, ?events_bind, ?final_bind;
            rewrite ?(execute_query_refused _ _ _ _ _ _ _ _ err Herr);
            cbn [mret M_ret emit lift outcome events final app]).
    split; [done|]. split; [done|]. by repeat constructor.
  - repeat (rewrite ?outcome_bind, ?events_bind, ?final_bind;
            rewrite ?(execute_query_refused _ _ _ _ _ _ _ _ err Herr);
            rewrite ?(execute_query_refused _ _ _ _ _ _ w
                        (mkSt (S (attempts s)) (session_state s)) err' Herr');
            cbn [mret M_ret emit lift outcome events final app
                 attempts session_state]).
    split; [done|]. split; [done|]. by repeat constructor.
Qed.

Lemma offline_unreachable a : unreachable offline a.
Proof. intros n. by eexists. Qed.

Lemma organism_profiles_page_unreachable_witness :
  unreachable offline (mkArgs "db.example" 3306 "root" "password" "ProjectDB") ∧
  st_selectbox (visitor 3 0 (Some "fum")) "Select a page:" pages =
    Some "Organism Profiles" ∧
  outcome (connected_page (visitor 3 0 (Some "fum")) "db.example" "root"
             "password" "ProjectDB" offline connected) = Raise (KeyError "Name").
Proof.
  split; [apply offline_unreachable|]. split; [reflexivity|].
  exact (proj1 (organism_profiles_page_unreachable (visitor 3 0 (Some "fum"))
                  "db.example" "root" "password" "ProjectDB" offline connected
                  (offline_unreachable _) eq_refl)).
Defined.

(** X15.  When the profile lookup returns rows that have no OrganismID column,
    reading the id raises [KeyError]; the two dependent queries are not
    attempted and nothing is rendered. *)
Theorem organism_profile_missing_id
    organism_name hostname user password database w s info r rs :
  outcome (execute_query profile_query hostname user password database
             (Some [organism_name]) w s) = Ok info →
  rows info = r :: rs →
  col_index "OrganismID" (columns info) = None →
  let run := organism_profile organism_name hostname user password database w s in
  outcome run = Raise (KeyError "OrganismID") ∧
  events run = events (execute_query profile_query hostname user password
                         database (Some [organism_name]) w s) ∧
  connections (events run) = [mkArgs hostname 3306 user password database].
Proof.
  intros Hinfo Hrows Hcol. cbv zeta. unfold organism_profile.
  rewrite outcome_bind, events_bind, Hinfo.
  rewrite outcome_bind, events_bind. cbn [lift outcome events final].
  unfold iloc0, row_get. rewrite Hrows, Hcol. rewrite app_nil_r.
  split; [done|]. split; [done|]. apply connections_execute_query.
Qed.

Lemma organism_profile_missing_id_witness :
  outcome (execute_query profile_query "db.example" "root" "password"
             "ProjectDB" (Some [VStr "x"])
             (mkWorld (λ _ _, None) (λ _ _ _, inr (["Name"], [[VStr "x"]])))
             initial) = Ok (mkFrame ["Name"] [[VStr "x"]]) ∧
  outcome (organism_profile (VStr "x") "db.example" "root" "password"
             "ProjectDB"
             (mkWorld (λ _ _, None) (λ _ _ _, inr (["Name"], [[VStr "x"]])))
             initial) = Raise (KeyError "OrganismID").
Proof.
  split; [reflexivity|].
  exact (proj1 (organism_profile_missing_id (VStr "x") "db.example" "root"
                  "password" "ProjectDB"
                  (mkWorld (λ _ _, None) (λ _ _ _, inr (["Name"], [[VStr "x"]])))
                  initial _ _ _ eq_refl eq_refl eq_refl)).
Defined.

(** ** The detail block of the high-funded projects *)

Lemma for_each_lines {A} (xs : list A) (body : A → M unit) (line : A → Event) w s :
  (∀ x s', body x w s' = mkRes (Ok tt) [line x] s') →
  for_each xs body w s = mkRes (Ok tt) (line <$> xs) s.
Proof.
  intros Hbody. induction xs as [|x r IH]; [reflexivity|].
  cbn [for_each]. rewrite (bind_run _ _ _ _ tt [line x] s (Hbody x s)).
  by rewrite IH.
Qed.

Lemma res_eta {A} (r : Res A) : r = mkRes (outcome r) (events r) (final r).
Proof. by destruct r. Qed.

Lemma rows_where_subset i k rs r : r ∈ rows_where i k rs → r ∈ rs.
Proof. unfold rows_where. rewrite list_elem_of_filter. by intros [_ ?]. Qed.

(** The lines the detail block writes for a project whose rows in the table
    are [first :: rest] and whose first funding amount is [z]. *)
Lemma project_details_run df k it ifu ist ion idom ieco w s :
  col_index "ProjectTitle" (columns df) = Some it →
  col_index "TotalFunding" (columns df) = Some ifu →
  col_index "ProjectStatus" (columns df) = Some ist →
  col_index "OrganismName" (columns df) = Some ion →
  col_index "Domain" (columns df) = Some idom →
  col_index "EcosystemName" (columns df) = Some ieco →
  Forall (λ r, ∃ z, cell r ifu = VInt z) (rows df) →
  k ∈ group_keys it (rows df) →
  ∃ first rest z,
    rows_where it k (rows df) = first :: rest ∧
    cell first ifu = VInt z ∧
    project_details df k w s =
      mkRes (Ok tt)
        ([StExpander ("Project: " +:+ py_str k);
          StWrite (Text ("Total Funding: $" +:+ (pretty z +:+ ".00") +:+
                         " million"));
          StWrite (Text ("Status: " +:+ py_str (frame_scalar (cell first ist))));
          StWrite (Text ("Number of Organisms: " +:+
                         pretty (length (first :: rest))));
          StWrite (Text "Associated Organisms:")] ++
         ((λ row, organism_line df row ion idom ieco) <$> first :: rest))
        s.
Proof.
  intros Hit Hifu Hist Hion Hidom Hieco Hfund Hk.
  destruct (group_keys_group _ _ _ Hk) as (_ & first & rest & Hg).
  assert (Hfirst : first ∈ rows df).
  { apply (rows_where_subset it k). rewrite Hg. left. }
  rewrite Forall_forall in Hfund. destruct (Hfund first Hfirst) as [z Hz].
  exists first, rest, z. split; [exact Hg|]. split; [exact Hz|].
  assert (Hlines : ∀ s',
    for_each (first :: rest) (λ row,
      name ← lift (row_get df row "OrganismName");
      domain ← lift (row_get df row "Domain");
      ecosystem ← lift (row_get df row "EcosystemName");
      emit (StWrite (Text ("- " +:+ py_str name +:+ " (" +:+ py_str domain +:+
                           ", " +:+ py_str ecosystem +:+ ")")))) w s' =
    mkRes (Ok tt) ((λ row, organism_line df row ion idom ieco) <$> first :: rest) s').
  { intros s'. apply for_each_lines. intros row s''.
    unfold row_get. rewrite Hion, Hidom, Hieco. reflexivity. }
  unfold project_details, column. cbn [columns rows].
  rewrite Hit, Hifu, Hist. cbn [fmap option_fmap option_map default from_option id].
  rewrite Hg. cbn [fmap list_fmap series_iloc0]. rewrite Hz.
  cbn [frame_scalar format_2f].
  match goal with |- ?r = _ => rewrite (res_eta r) end.
  f_equal.
  - repeat (rewrite ?outcome_bind, ?final_bind;
            cbn [emit lift outcome events final series_iloc0 frame_scalar
                 format_2f]).
    by rewrite Hlines.
  - repeat (rewrite ?events_bind, ?outcome_bind, ?final_bind;
            cbn [emit lift outcome events final app series_iloc0 frame_scalar
                 format_2f]).
    by rewrite Hlines.
  - repeat (rewrite ?outcome_bind, ?final_bind;
            cbn [emit lift outcome events final series_iloc0 frame_scalar
                 format_2f]).
    by rewrite Hlines.
Qed.



Lemma for_each_blocks {A} (xs : list A) (body : A → M unit)
    (block : A → list Event) w s :
  (∀ x, x ∈ xs → ∀ s', body x w s' = mkRes (Ok tt) (block x) s') →
  for_each xs body w s = mkRes (Ok tt) (concat (block <$> xs)) s.
Proof.
  induction xs as [|x r IH]; intros Hbody; [reflexivity|].
  cbn [for_each].
  rewrite (bind_run _ _ _ _ tt (block x) s (Hbody x ltac:(left) s)).
  rewrite IH by (intros y Hy; apply Hbody; by right). reflexivity.
Qed.

Lemma unique_strings vs :
  Forall (λ v, ∃ t, v = VStr t) vs → NoDup vs → unique vs = vs.
Proof.
  induction 1 as [|v vs [t ->] Hvs IH]; [done|].
  rewrite NoDup_cons. intros [Hv Hnd]. cbn [unique]. rewrite IH by done.
  f_equal. clear IH Hnd. induction Hvs as [|v' vs [t' ->] _ IH]; [done|].
  apply not_elem_of_cons in Hv as [Hne Hv].
  rewrite filter_cons_True.
  - by rewrite IH.
  - cbn. apply negb_True, Is_true_false. apply String.eqb_neq. congruence.
Qed.

Lemma group_keys_strings i rs :
  Forall (λ r, cell r i = VNone ∨ ∃ t, cell r i = VStr t) rs →
  Forall (λ v, ∃ t, v = VStr t) (group_keys i rs).
Proof.
  intros Hrs. rewrite Forall_forall. intros k Hk.
  apply group_keys_elem, unique_subset in Hk.
  apply list_elem_of_filter in Hk as [Hnn Hk].
  apply list_elem_of_fmap in Hk as (r & -> & Hr).
  rewrite Forall_forall in Hrs. destruct (Hrs r Hr) as [Hnull|Hstr]; [|done].
  by rewrite Hnull in Hnn.
Qed.

(** X17.  When the store answers the high-funded projects entry with a table
    that has the six columns the view reads, an integer in every
    TotalFunding cell and titles that are strings or NULL, the view returns
    normally: it shows the table, draws the chart, writes the Project
    Details subheader and then one detail block per distinct title that is
    not null, in the sorted order of the summary. *)
Theorem administrator_view_high_funded
    ui hostname user password database w s cols rs it ifu ist ion idom ieco :
  st_selectbox ui "Select a query:" administrator_queries =
    Some "High-funded projects and associated organisms" →
  accept w (attempts s) (mkArgs hostname 3306 user password database) = None →
  answer w (attempts s) "SELECT * FROM Admin_High_Funded_Projects" None =
    inr (cols, rs) →
  col_index "ProjectTitle" cols = Some it →
  col_index "TotalFunding" cols = Some ifu →
  col_index "ProjectStatus" cols = Some ist →
  col_index "OrganismName" cols = Some ion →
  col_index "Domain" cols = Some idom →
  col_index "EcosystemName" cols = Some ieco →
  Forall (λ r, ∃ z, cell r ifu = VInt z) rs →
  Forall (λ r, cell r it = VNone ∨ ∃ t, cell r it = VStr t) rs →
  let a := mkArgs hostname 3306 user password database in
  let df := mkFrame cols rs in
  let s' := mkSt (S (attempts s)) (session_state s) in
  let r := administrator_view ui hostname user password database w s in
  outcome r = Ok tt ∧
  events r =
    StHeader "Administrator View" ::
    query_events a "SELECT * FROM Admin_High_Funded_Projects" None ++
    [StDataframe df; StPlotlyChart "High-Funded Projects (>$2 million)";
     StSubheader "Project Details"] ++
    concat ((λ k, events (project_details df k w s')) <$> group_keys it rs).
Proof.
  intros Hsel Hacc Hans Hit Hifu Hist Hion Hidom Hieco Hfund Htitles.
  cbv zeta. set (df := mkFrame cols rs).
  set (s' := mkSt (S (attempts s)) (session_state s)).
  assert (Hblocks : ∀ s1,
    for_each (group_keys it rs) (project_details df) w s1 =
    mkRes (Ok tt)
      (concat ((λ k, events (project_details df k w s')) <$> group_keys it rs))
      s1).
  { intros s1. apply for_each_blocks. intros k Hk s2.
    destruct (project_details_run df k it ifu ist ion idom ieco w s2
                Hit Hifu Hist Hion Hidom Hieco Hfund Hk)
      as (first & rest & z & Hg & Hz & ->).
    destruct (project_details_run df k it ifu ist ion idom ieco w s'
                Hit Hifu Hist Hion Hidom Hieco Hfund Hk)
      as (first' & rest' & z' & Hg' & Hz' & ->).
    rewrite Hg in Hg'. injection Hg' as <- <-.
    rewrite Hz in Hz'. by injection Hz' as <-. }
  assert (Hsummary : project_summary df =
    Ok (mkFrame ["ProjectTitle"; "TotalFunding"; "ProjectStatus"; "OrganismCount"]
          ((λ k, let g := rows_where it k rs in
                 [k; agg_first ((λ r, cell r ifu) <$> g);
                  agg_first ((λ r, cell r ist) <$> g);
                  agg_count ((λ r, cell r ion) <$> g)])
           <$> group_keys it rs))).
  { unfold project_summary, need_column. cbn [df columns rows].
    by rewrite Hit, Hifu, Hist, Hion. }
  assert (Htitles' : ∀ f : PyVal → list PyVal,
    (∀ k, cell (f k) 0 = k) →
    unique ((λ r, cell r 0) <$> (f <$> group_keys it rs)) = group_keys it rs).
  { intros f Hf. rewrite <- list_fmap_compose.
    rewrite (list_fmap_ext _ id (group_keys it rs)) by (intros ???; apply Hf).
    rewrite list_fmap_id. apply unique_strings.
    - by apply group_keys_strings.
    - apply group_keys_NoDup. }
  unfold administrator_view, show_table. cbv zeta. rewrite Hsel. dispatch.
  pose proof (execute_query_answered "SELECT * FROM Admin_High_Funded_Projects"
                hostname user password database None w s cols rs Hacc Hans)
    as Hq.
  fold df s' in Hq.
  split.
  - repeat (rewrite ?outcome_bind, ?final_bind; rewrite ?Hq, ?Hsummary;
            cbn [mret M_ret emit lift outcome events final column columns rows
                 col_index String.eqb Ascii.eqb Bool.eqb]).
    rewrite Htitles' by done. by rewrite Hblocks.
  - repeat (rewrite ?events_bind, ?outcome_bind, ?final_bind;
            rewrite ?Hq, ?Hsummary;
            cbn [mret M_ret emit lift outcome events final column columns rows
                 app col_index String.eqb Ascii.eqb Bool.eqb]).
    rewrite Htitles' by done. by rewrite Hblocks.
Qed.

Lemma administrator_view_high_funded_witness :
  st_selectbox (visitor 2 4 None) "Select a query:" administrator_queries =
    Some "High-funded projects and associated organisms" ∧
  accept funded_store 1
    (mkArgs "db.example" 3306 "root" "password" "ProjectDB") = None ∧
  answer funded_store 1 "SELECT * FROM Admin_High_Funded_Projects" None =
    inr (columns funded_example, rows funded_example) ∧
  col_index "ProjectTitle" (columns funded_example) = Some 0%nat ∧
  col_index "TotalFunding" (columns funded_example) = Some 1%nat ∧
  col_index "ProjectStatus" (columns funded_example) = Some 2%nat ∧
  col_index "OrganismName" (columns funded_example) = Some 3%nat ∧
  col_index "Domain" (columns funded_example) = Some 4%nat ∧
  col_index "EcosystemName" (columns funded_example) = Some 5%nat ∧
  Forall (λ r, ∃ z, cell r 1 = VInt z) (rows funded_example) ∧
  Forall (λ r, cell r 0 = VNone ∨ ∃ t, cell r 0 = VStr t) (rows funded_example) ∧
  outcome (administrator_view (visitor 2 4 None) "db.example" "root" "password"
             "ProjectDB" funded_store connected) = Ok tt.
Proof.
  assert (Hfund : Forall (λ r, ∃ z, cell r 1 = VInt z) (rows funded_example))
    by (repeat constructor; by eexists).
  assert (Htitles : Forall (λ r, cell r 0 = VNone ∨ ∃ t, cell r 0 = VStr t)
                      (rows funded_example))
    by (repeat (constructor; [right; by eexists|]); constructor).
  repeat (split; [reflexivity|]). split; [exact Hfund|]. split; [exact Htitles|].
  exact (proj1 (administrator_view_high_funded (visitor 2 4 None) "db.example"
                  "root" "password" "ProjectDB" funded_store connected
                  (columns funded_example) (rows funded_example) 0 1 2 3 4 5
                  eq_refl eq_refl eq_refl eq_refl eq_refl eq_refl eq_refl
                  eq_refl eq_refl Hfund Htitles)).
Defined.

(** X18.  On the Organism Profiles page, when the organism list comes back with
    no rows the select box has nothing to offer and gives [None]; the
    profile is then looked up for [None], and when that lookup finds no row
    the page raises [IndexError]. *)
Theorem organism_profiles_page_empty_list
    ui hostname user password database w s cols i info :
  st_text_input ui "Search for organisms or projects:" "" = "" →
  st_selectbox ui "Select a page:" pages = Some "Organism Profiles" →
  accept w (attempts s) (mkArgs hostname 3306 user password database) = None →
  answer w (attempts s) "SELECT Name FROM Organism" None = inr (cols, []) →
  col_index "Name" cols = Some i →
  let a := mkArgs hostname 3306 user password database in
  let s1 := mkSt (S (attempts s)) (session_state s) in
  let lookup := execute_query profile_query hostname user password database
                  (Some [VNone]) w s1 in
  outcome lookup = Ok info →
  rows info = [] →
  let r := connected_page ui hostname user password database w s in
  outcome r = Raise IndexError ∧
  events r = query_events a "SELECT Name FROM Organism" None ++ events lookup.
Proof.
  intros Hterm Hsel Hacc Hans Hcol. cbv zeta. intros Hinfo Hrows.
  unfold connected_page. cbv zeta. rewrite Hsel, Hterm. dispatch.
  pose proof (execute_query_answered "SELECT Name FROM Organism"
                hostname user password database None w s cols [] Hacc Hans)
    as Hq.
  assert (Hnames : ∀ s2,
    (names ← lift (column (mkFrame cols []) "Name");
     organism_profile
       (default VNone (st_selectbox ui "Select an organism:"
                         (tolist_scalar <$> names)))
       hostname user password database) w s2 =
    organism_profile VNone hostname user password database w s2).
  { intros s2. unfold column. cbn [columns rows]. rewrite Hcol.
    unfold mbind at 1, M_bind at 1, lift. cbv zeta.
    cbn [outcome events final app fmap list_fmap].
    unfold st_selectbox. rewrite lookup_nil.
    cbn [head default from_option].
    by destruct (organism_profile VNone _ _ _ _ w s2). }
  assert (Hprofile :
    organism_profile VNone hostname user password database w
      (mkSt (S (attempts s)) (session_state s)) =
    mkRes (Raise IndexError)
      (events (execute_query profile_query hostname user password database
                 (Some [VNone]) w (mkSt (S (attempts s)) (session_state s))))
      (final (execute_query profile_query hostname user password database
                (Some [VNone]) w (mkSt (S (attempts s)) (session_state s))))).
  { unfold organism_profile. rewrite (bind_ok _ _ _ _ info Hinfo).
    unfold mbind at 1, M_bind at 1, lift, iloc0. cbv zeta. rewrite Hrows.
    cbn [outcome events final]. by rewrite app_nil_r. }
  rewrite (bind_run _ _ w s tt [] s eq_refl).
  rewrite (bind_run _ _ _ _ _ _ _ Hq).
  rewrite Hnames, Hprofile. cbn [outcome events final app].
  split; reflexivity.
Qed.

Lemma organism_profiles_page_empty_list_witness :
  st_text_input (visitor 3 0 None) "Search for organisms or projects:" "" = "" ∧
  st_selectbox (visitor 3 0 None) "Select a page:" pages =
    Some "Organism Profiles" ∧
  accept empty_store 1
    (mkArgs "db.example" 3306 "root" "password" "ProjectDB") = None ∧
  answer empty_store 1 "SELECT Name FROM Organism" None = inr (["Name"], []) ∧
  col_index "Name" ["Name"] = Some 0%nat ∧
  outcome (execute_query profile_query "db.example" "root" "password"
             "ProjectDB" (Some [VNone]) empty_store
             (mkSt 2 (session_state connected))) = Ok (mkFrame ["Name"] []) ∧
  outcome (connected_page (visitor 3 0 None) "db.example" "root" "password"
             "ProjectDB" empty_store connected) = Raise IndexError.
Proof.
  repeat (split; [reflexivity|]).
  exact (proj1 (organism_profiles_page_empty_list (visitor 3 0 None)
                  "db.example" "root" "password" "ProjectDB" empty_store
                  connected ["Name"] 0 (mkFrame ["Name"] [])
                  eq_refl eq_refl eq_refl eq_refl eq_refl eq_refl eq_refl)).
Defined.
